(** * Dietary-restriction classification: a model of
      [src/classification/dietary_restrictions.py]

    The script reads survey CSV files, asks a chat-completion provider for a
    list of categories, classifies every approved row against it (with a
    second provider as fallback), counts the categories per file and writes
    the counts to a fresh CSV file.

    The model follows the script function by function.  Python values are a
    datatype [value]; exceptions are a result type; the providers, the JSON
    reader, the iteration order of a Python set and the encoding of the
    output file are the fields of a class [Runtime], so every theorem holds
    for every behaviour of those collaborators.  A small concrete [Runtime] is defined at the end of the
    definitions and is used for the closed examples.

    Not modelled: the text printed to standard output, the progress bar,
    errors of the file system, and limits of the interpreter (recursion
    depth, memory).  A character is a code point below 256. *)

From Stdlib Require Import Floats.PrimFloat Floats.FloatOps Floats.SpecFloat.
From Stdlib Require Import Ascii.
From stdpp Require Import gmap strings list pretty.
From Equations Require Import Equations.

(** ** Python strings *)

Module Str.

(** [str.isspace] on one character, for code points below 256. *)
Definition isspace (c : ascii) : bool :=
  let n := nat_of_ascii c in
  ((9 <=? n)%nat && (n <=? 13)%nat) || ((28 <=? n)%nat && (n <=? 32)%nat)
  || (n =? 133)%nat || (n =? 160)%nat.

Fixpoint lstrip (s : string) : string :=
  match s with
  | String c s' => if isspace c then lstrip s' else s
  | EmptyString => EmptyString
  end.

Fixpoint rstrip (s : string) : string :=
  match s with
  | String c s' =>
      match rstrip s' with
      | EmptyString => if isspace c then EmptyString else String c EmptyString
      | r => String c r
      end
  | EmptyString => EmptyString
  end.

(** [s.strip()] *)
Definition strip (s : string) : string := rstrip (lstrip s).

(** [str.lower] on one character: A-Z, and the upper-case letters of the
    Latin-1 block (0xC0-0xDE without the multiplication sign 0xD7). *)
Definition lower_char (c : ascii) : ascii :=
  let n := nat_of_ascii c in
  if ((65 <=? n)%nat && (n <=? 90)%nat)
     || ((192 <=? n)%nat && (n <=? 222)%nat && negb (n =? 215)%nat)
  then ascii_of_nat (n + 32) else c.

(** [s.lower()] *)
Fixpoint lower (s : string) : string :=
  match s with
  | String c s' => String (lower_char c) (lower s')
  | EmptyString => EmptyString
  end.

(** [s.startswith(p)] *)
Definition startswith (p s : string) : bool := String.prefix p s.

(** [s.endswith(p)]: some tail of [s] is [p]. *)
Fixpoint endswith (p s : string) : bool :=
  String.eqb s p
  || match s with
     | String _ s' => endswith p s'
     | EmptyString => false
     end.

(** [sep.join(l)] for a list of strings. *)
Fixpoint join (sep : string) (l : list string) : string :=
  match l with
  | [] => ""
  | [s] => s
  | s :: l' => s +:+ sep +:+ join sep l'
  end.

(** The characters of a string, each as a string of length one: what
    iterating over a [str] yields. *)
Fixpoint chars (s : string) : list string :=
  match s with
  | String c s' => String c EmptyString :: chars s'
  | EmptyString => []
  end.

(** Truthiness of a string: [if s:]. *)
Definition nonempty (s : string) : bool :=
  match s with EmptyString => false | String _ _ => true end.

(** [s.isascii()]: every code point is below 128. *)
Fixpoint is_ascii (s : string) : bool :=
  match s with
  | String c s' => (nat_of_ascii c <? 128)%nat && is_ascii s'
  | EmptyString => true
  end.

(** The double quote, the newline and the indentation of the prompts. *)
Definition dq : string := String (ascii_of_nat 34) EmptyString.
Definition nl : string := String (ascii_of_nat 10) EmptyString.
Definition quoted (s : string) : string := dq +:+ s +:+ dq.

End Str.

(** ** Python values and exceptions *)

(** The values the script handles: what [json.loads] returns ([None],
    [bool], [int], [float], [str], [list], [dict] with string keys in
    insertion order) and what [csv.DictReader] puts in a row ([str], or
    [None] for a field missing from a short record). *)
#[warnings="-register-all"]
Inductive value : Type :=
| PyNone
| PyBool (b : bool)
| PyInt (z : Z)
| PyFloat (f : float)
| PyStr (s : string)
| PyList (l : list value)
| PyDict (d : list (string * value)).

(** The exceptions that matter to the control flow.  [ProviderError] stands
    for whatever a provider's client raises (transport, authentication, rate
    limit, a response without choices or content). *)
Inductive exn : Type :=
| JSONDecodeError
| AttributeError
| TypeError
| UnicodeEncodeError
| ProviderError (msg : string).

Inductive result (A : Type) : Type :=
| Ok (a : A)
| Raise (e : exn).
Arguments Ok {A} a.
Arguments Raise {A} e.

Definition is_ok {A} (r : result A) : bool :=
  match r with Ok _ => true | Raise _ => false end.

Definition result_bind {A B} (r : result A) (k : A → result B) : result B :=
  match r with Ok a => k a | Raise e => Raise e end.

Module Py.

(** [iter(v)]: the elements a [for] loop, [list.extend] or [str.join]
    draws from [v]; [TypeError] when [v] is not iterable. *)
Definition iter (v : value) : result (list value) :=
  match v with
  | PyList l => Ok l
  | PyStr s => Ok (PyStr <$> Str.chars s)
  | PyDict d => Ok ((λ kv, PyStr kv.1) <$> d)
  | PyNone | PyBool _ | PyInt _ | PyFloat _ => Raise TypeError
  end.

Fixpoint assoc (k : string) (d : list (string * value)) : option value :=
  match d with
  | [] => None
  | (k', v) :: d' => if String.eqb k k' then Some v else assoc k d'
  end.

(** [v.get(key, dflt)]: only a [dict] has the method. *)
Definition get (v : value) (key : string) (dflt : value) : result value :=
  match v with
  | PyDict d => Ok (default dflt (assoc key d))
  | _ => Raise AttributeError
  end.

(** [v.strip()]: only a [str] has the method. *)
Definition strip (v : value) : result string :=
  match v with
  | PyStr s => Ok (Str.strip s)
  | _ => Raise AttributeError
  end.

Fixpoint strings (l : list value) : result (list string) :=
  match l with
  | [] => Ok []
  | PyStr s :: l' => result_bind (strings l') (λ r, Ok (s :: r))
  | _ :: _ => Raise TypeError
  end.

(** [sep.join(v)]: [v] must be iterable and yield strings only. *)
Definition join (sep : string) (v : value) : result string :=
  result_bind (iter v) (λ l,
  result_bind (strings l) (λ ss, Ok (Str.join sep ss))).

(** [hash(v)] succeeds: lists and dicts are unhashable. *)
Definition hashable (v : value) : bool :=
  match v with
  | PyList _ | PyDict _ => false
  | _ => true
  end.

(** [z == f] for an [int] and a [float], compared exactly. *)
Definition int_eq_float (z : Z) (f : float) : bool :=
  match Prim2SF f with
  | S754_zero _ => (z =? 0)%Z
  | S754_finite sg m e =>
      let m' := if sg then Z.neg m else Z.pos m in
      if (0 <=? e)%Z then (z =? m' * 2 ^ e)%Z
      else (z * 2 ^ (- e) =? m')%Z
  | S754_infinity _ | S754_nan => false
  end.

(** Key equality of a [dict] ([x is y or x == y]) on hashable values:
    [True == 1 == 1.0]; the only NaN [json.loads] returns is one shared
    object, so it is the same key every time. *)
Definition key_eqb (x y : value) : bool :=
  match x, y with
  | PyNone, PyNone => true
  | PyStr s, PyStr t => String.eqb s t
  | PyBool a, PyBool b => Bool.eqb a b
  | PyBool a, PyInt z | PyInt z, PyBool a => (Z.b2z a =? z)%Z
  | PyInt a, PyInt b => (a =? b)%Z
  | PyBool a, PyFloat f | PyFloat f, PyBool a => int_eq_float (Z.b2z a) f
  | PyInt z, PyFloat f | PyFloat f, PyInt z => int_eq_float z f
  | PyFloat f, PyFloat g => PrimFloat.eqb f g || (is_nan f && is_nan g)
  | _, _ => false
  end.

End Py.

(** ** The count table and the output file name *)

#[global] Instance result_ret : MRet result := @Ok.
#[global] Instance result_mbind : MBind result := λ A B k r, result_bind r k.

(** [classifications = defaultdict(list)]: file names in insertion order,
    each with the categories appended so far. *)
Abbreviation table := (list (string * list value)).

(** [classifications[filename].append(cat)]: a missing key is created by
    the access. *)
Fixpoint dd_append (filename : string) (cat : value) (t : table) : table :=
  match t with
  | [] => [(filename, [cat])]
  | (f, cats) :: t' =>
      if String.eqb f filename then (f, cats ++ [cat]) :: t'
      else (f, cats) :: dd_append filename cat t'
  end.

(** [for cat in cats: classifications[filename].append(cat)] *)
Fixpoint append_all (filename : string) (cats : list value) (t : table) : table :=
  match cats with
  | [] => t
  | cat :: cats' => append_all filename cats' (dd_append filename cat t)
  end.

(** The entries of a file in the table ([[]] for a file without key). *)
Fixpoint entries (filename : string) (t : table) : list value :=
  match t with
  | [] => []
  | (f, cats) :: t' =>
      if String.eqb f filename then cats else entries filename t'
  end.

(** One step of [Counter(cats)]: [self[elem] = self.get(elem, 0) + 1]. *)
Fixpoint counter_incr (elem : value) (c : list (value * nat)) : list (value * nat) :=
  match c with
  | [] => [(elem, 1)]
  | (k, n) :: c' =>
      if Py.key_eqb k elem then (k, S n) :: c'
      else (k, n) :: counter_incr elem c'
  end.

Fixpoint counter_update (cats : list value) (c : list (value * nat)) : result (list (value * nat)) :=
  match cats with
  | [] => Ok c
  | elem :: cats' =>
      if Py.hashable elem then counter_update cats' (counter_incr elem c)
      else Raise TypeError
  end.

(** [Counter(cats)]: keys in first-seen order; an unhashable element raises. *)
Definition Counter (cats : list value) : result (list (value * nat)) :=
  counter_update cats [].

(** [counts[key]] of a [Counter] (0 for a missing key). *)
Fixpoint counter_get (key : value) (c : list (value * nat)) : nat :=
  match c with
  | [] => 0
  | (k, n) :: c' => if Py.key_eqb k key then n else counter_get key c'
  end.

(** [{filename: Counter(cats) for filename, cats in classifications.items()}] *)
Fixpoint classification_counts (t : table) : result (list (string * list (value * nat))) :=
  match t with
  | [] => Ok []
  | (f, cats) :: t' =>
      c ← Counter cats;
      r ← classification_counts t';
      Ok ((f, c) :: r)
  end.

(** The rows handed to [writer.writerow], header first. *)
Definition header : list value :=
  [PyStr "filename"; PyStr "category_name"; PyStr "count"].

Definition data_rows (counts : list (string * list (value * nat))) : list (list value) :=
  '(filename, c) ← counts;
  '(category, count) ← c;
  [[PyStr filename; category; PyInt (Z.of_nat count)]].

(** [f"{base_name}({counter}){extension}"] *)
Definition candidate (base_name extension : string) (counter : nat) : string :=
  base_name +:+ "(" +:+ pretty counter +:+ ")" +:+ extension.

(** The candidates numbered below [counter]: those the loop of
    [get_unique_filename] has left behind when it looks at [counter]. *)
Definition tried (base_name extension : string) (counter : nat) : gset string :=
  list_to_set (candidate base_name extension <$> seq 0 counter).

(** [get_unique_filename], from the value of [counter] on: the [while True]
    loop.  It ends because every pass with an existing candidate removes one
    path of the disk from those still ahead. *)
Equations? get_unique_filename_from (base_name extension : string)
    (existing : gset string) (counter : nat) : string
    by wf (size (existing ∖ tried base_name extension counter)) lt :=
  get_unique_filename_from base_name extension existing counter
    with Logic.inspect (bool_decide (candidate base_name extension counter ∈ existing)) := {
    | exist _ true Hexists =>
        get_unique_filename_from base_name extension existing (S counter)
    | exist _ false _ => candidate base_name extension counter }.
Proof.
  apply bool_decide_eq_true in Hexists.
  (* the candidates are pairwise distinct *)
  assert (Hlen : ∀ s t : string,
            String.length (s +:+ t) = String.length s + String.length t).
  { intros s t. induction s as [|a s IH]; simpl; [done | by rewrite IH]. }
  assert (Htail : ∀ s1 s2 t : string, s1 +:+ t = s2 +:+ t → s1 = s2).
  { intros s1 s2 t H.
    assert (Hl : String.length s1 = String.length s2).
    { apply (f_equal String.length) in H. rewrite !Hlen in H. lia. }
    clear -H Hl. revert s2 H Hl.
    induction s1 as [|a s1 IH]; intros [|b s2] H Hl; simpl in *; try done.
    injection H as -> H. f_equal. apply IH; [done | lia]. }
  assert (Hinj : ∀ n m,
            candidate base_name extension n = candidate base_name extension m →
            n = m).
  { intros n m H. unfold candidate in H.
    apply (inj (String.app base_name)) in H.
    apply (inj (String.app "(")) in H.
    apply Htail in H. by apply (inj pretty) in H. }
  assert (Htried : ∀ c p,
            p ∈ tried base_name extension c ↔
            ∃ k, k < c ∧ p = candidate base_name extension k).
  { intros c p. unfold tried.
    rewrite elem_of_list_to_set, list_elem_of_fmap. split.
    - intros (k & -> & Hk). apply elem_of_seq in Hk. exists k.
      split; [lia | done].
    - intros (k & Hk & ->). exists k. split; [done |]. apply elem_of_seq. lia. }
  (* one path of the disk leaves the set measured *)
  apply subset_size. apply strict_spec_alt. split.
  - intros p. rewrite !elem_of_difference, !Htried.
    intros [Hp Hn]. split; [done |]. intros (k & Hk & ->). apply Hn.
    exists k. split; [lia | done].
  - intros Heq.
    assert (Hc : candidate base_name extension counter
                   ∈ existing ∖ tried base_name extension counter).
    { apply elem_of_difference. split; [done |]. rewrite Htried.
      intros (k & Hk & Hkc). apply Hinj in Hkc. lia. }
    rewrite <- Heq in Hc. apply elem_of_difference in Hc as [_ Hc].
    apply Hc. apply Htried. exists counter. split; [lia | done].
Qed.

(** [get_unique_filename(base_name, extension)] on a disk where the paths
    [existing] exist: [counter = 1], then the loop. *)
Definition get_unique_filename (base_name extension : string) (existing : gset string) : string :=
  get_unique_filename_from base_name extension existing 1.

(** ** The collaborators of the script *)

Inductive provider : Type := Groq | OpenAI.

(** The arguments of [client.chat.completions.create] that vary: the model
    name and the contents of the system and of the user message.  The other
    arguments are the same constants in every call ([temperature=0],
    [max_tokens=1024], [top_p=1], [stream=False], a JSON object as response
    format, no stop sequence). *)
Record chat_request : Type := ChatRequest {
  model : string;
  system_content : string;
  user_content : value;
}.

(** A CSV record as [csv.DictReader] yields it, and a data folder as
    [os.listdir] lists it: the file names in listing order, each with the
    records of the file. *)
Abbreviation row := (gmap string value).
Abbreviation folder := (list (string * list row)).

(** What the script does not define itself.
    - [new_client p w]: [Groq()] or [OpenAI()], which raise without an API
      key.
    - [chat_create p r w]: one chat completion; [Ok content] is
      [completion.choices[0].message.content].
    - [json_loads]: [json.loads].
    - [set_iter s]: the order in which Python iterates over the set [s]; the
      language fixes the elements and not their order.
    - [encodable s]: the encoding of the locale, which
      [open(output_file, 'w', newline='')] gives the output file, has every
      character of [s]; whatever the locale, it has those of ASCII. *)
Class Runtime : Type := {
  World : Type;
  new_client : provider → World → result unit * World;
  chat_create : provider → chat_request → World → result string * World;
  json_loads : string → result value;
  set_iter : gset string → list string;
  set_iter_perm : ∀ s, set_iter s ≡ₚ elements s;
  encodable : string → bool;
  encodable_ascii : ∀ s, Str.is_ascii s = true → encodable s = true;
}.

(** What a run does to the outside, in order.  [WriteCsv path lines]: the
    file [path] is created, or emptied, and closed holding the rows
    [lines]. *)
Inductive event : Type :=
| NewClient (p : provider)
| ChatCreate (p : provider) (r : chat_request)
| Sleep
| WriteCsv (path : string) (lines : list (list value)).

Section Script.

Context `{RT : Runtime}.

(** The state a run threads through: the providers' world, the events so
    far (oldest first) and the paths that exist on disk. *)
Record state : Type := State {
  world : World;
  trace : list event;
  disk : gset string;
}.

(** A computation of the script: it ends with a value or an exception, and
    in both cases with a state. *)
Definition M (A : Type) : Type := state → result A * state.

Definition ret {A} (a : A) : M A := λ s, (Ok a, s).

Definition bind {A B} (m : M A) (k : A → M B) : M B :=
  λ s, match m s with
       | (Ok a, s') => k a s'
       | (Raise e, s') => (Raise e, s')
       end.

(** A pure step that may raise. *)
Definition lift {A} (r : result A) : M A := λ s, (r, s).

(** [try: m  except Exception: h] *)
Definition try_except {A} (m : M A) (h : exn → M A) : M A :=
  λ s, match m s with
       | (Ok a, s') => (Ok a, s')
       | (Raise e, s') => h e s'
       end.

Definition emit (e : event) : M unit :=
  λ s, (Ok (), State (world s) (trace s ++ [e]) (disk s)).

Definition client (p : provider) : M unit :=
  λ s, let '(r, w) := new_client p (world s) in
       (r, State w (trace s ++ [NewClient p]) (disk s)).

Definition create (p : provider) (r : chat_request) : M string :=
  λ s, let '(c, w) := chat_create p r (world s) in
       (c, State w (trace s ++ [ChatCreate p r]) (disk s)).

(** [time.sleep(0.1)] *)
Definition sleep : M unit := emit Sleep.

#[global] Instance M_ret : MRet M := @ret.
#[global] Instance M_bind : MBind M := λ A B k m, bind m k.

(** *** [get_unique_categories] *)

(** [row.get(key, '')] *)
Definition row_get (r : row) (key : string) : value :=
  default (PyStr "") (r !! key).

(** [row.get("approval_status", "").strip().lower() == "approved"] *)
Definition is_approved (r : row) : result bool :=
  status ← Py.strip (row_get r "approval_status");
  Ok (String.eqb (Str.lower status) "approved").

(** Lines 18-22: the rows of one file. *)
Fixpoint unique_of_rows (column_name : string) (rows : list row)
    (unique_values : gset string) : result (gset string) :=
  match rows with
  | [] => Ok unique_values
  | r :: rows' =>
      approved ← is_approved r;
      if approved : bool then
        v ← Py.strip (row_get r column_name);
        if Str.nonempty v
        then unique_of_rows column_name rows' ({[v]} ∪ unique_values)
        else unique_of_rows column_name rows' unique_values
      else unique_of_rows column_name rows' unique_values
  end.

(** [[f for f in os.listdir(data_folder) if f.endswith('.csv')]] *)
Definition csv_files (data_folder : folder) : folder :=
  filter (λ f, Str.endswith ".csv" f.1 = true) data_folder.

(** Lines 15-22: the files of the folder. *)
Fixpoint unique_of_files (column_name : string) (files : folder)
    (unique_values : gset string) : result (gset string) :=
  match files with
  | [] => Ok unique_values
  | (_, rows) :: files' =>
      u ← unique_of_rows column_name rows unique_values;
      unique_of_files column_name files' u
  end.

Definition unique_values_of (data_folder : folder) (column_name : string) : result (gset string) :=
  unique_of_files column_name (csv_files data_folder) ∅.

Definition indent8 : string := "        ".

(** Lines 27-30. *)
Definition categories_prompt (values : list string) : string :=
  "Given the following list of dietary restrictions and food allergies, create a standardized list of category names: "
  +:+ Str.join ", " values
  +:+ ". Include 'No restrictions' as a category. Provide the result as a JSON array of strings."
  +:+ Str.nl +:+ indent8
  +:+ "For example, your response should look something like this: {"
  +:+ Str.quoted "categories" +:+ ": [" +:+ Str.quoted "one" +:+ ", "
  +:+ Str.quoted "two" +:+ "]}"
  +:+ Str.nl +:+ indent8.

(** Lines 37-38. *)
Definition categories_system : string :=
  "You're an expert at identifying and categorizing dietary restrictions."
  +:+ Str.nl +:+ indent8 +:+ indent8
  +:+ "Your response must be in JSON format.".

Definition llama : string := "llama-3.1-70b-versatile".
Definition gpt : string := "gpt-4o-mini".

Definition get_unique_categories (data_folder : folder) (column_name : string) : M value :=
  unique_values ← lift (unique_values_of data_folder column_name);
  client Groq;;
  content ← create Groq
    (ChatRequest llama categories_system
       (PyStr (categories_prompt (set_iter unique_values))));
  categories ← lift (json_loads content);
  lift (Py.get categories "categories" (PyList [])).

(** *** [classify_dietary_restrictions] *)

(** Lines 61-68, with [', '.join(categories)] already evaluated. *)
Definition classify_system (joined : string) : string :=
  "You're an expert at classifying the description of dietary restrictions using the following categories: "
  +:+ joined +:+ "."
  +:+ Str.nl +:+ indent8
  +:+ "If there's no restriction or the text indicates no restrictions, classify it as 'No restrictions'."
  +:+ Str.nl +:+ indent8
  +:+ "Your respond must be in JSON format where the key is "
  +:+ Str.quoted "dietary_restrictions"
  +:+ " and the values is a list of categories you classfied from the given user message."
  +:+ Str.nl +:+ indent8
  +:+ "Your response should look something like this example: {"
  +:+ Str.quoted "dietary_restrictions" +:+ ": [" +:+ Str.quoted "one"
  +:+ ", " +:+ Str.quoted "two" +:+ "]}"
  +:+ Str.nl +:+ indent8
  +:+ "There could potentially be more than one category."
  +:+ Str.nl +:+ indent8
  +:+ "Do not preface anything, just return the JSON object and nothing else."
  +:+ Str.nl +:+ indent8.

Definition provider_of (use_openai : bool) : provider :=
  if use_openai then OpenAI else Groq.

Definition model_of (use_openai : bool) : string :=
  if use_openai then gpt else llama.

(** The request of lines 75-90. *)
Definition classify_request (text : value) (joined : string) (use_openai : bool) : chat_request :=
  ChatRequest (model_of use_openai) (classify_system joined) text.

Definition classify_dietary_restrictions (text categories : value) (use_openai : bool) : M value :=
  client (provider_of use_openai);;
  joined ← lift (Py.join ", " categories);
  content ← create (provider_of use_openai) (classify_request text joined use_openai);
  response ← lift (json_loads content);
  lift (Py.get response "dietary_restrictions" (PyList [])).

(** *** [process_csv_files] *)

(** Lines 130-134: the loop over the sub-texts, [classification] being the
    list built so far. *)
Fixpoint classify_items (items : list value) (categories : value)
    (classification : list value) : M value :=
  match items with
  | [] => mret (PyList classification)
  | item :: items' =>
      c ← classify_dietary_restrictions item categories false;
      more ← lift (Py.iter c);
      sleep;;
      classify_items items' categories (classification ++ more)
  end.

(** Lines 127-139: the body of the outer [try]. *)
Definition classify_primary (text : string) (categories : value) : M value :=
  if Str.startswith "[" text && Str.endswith "]" text then
    text_list ← lift (json_loads text);
    items ← lift (Py.iter text_list);
    classify_items items categories []
  else
    c ← classify_dietary_restrictions (PyStr text) categories false;
    sleep;;
    mret c.

(** Lines 144-149: the handler of the outer [try], with its own [try]. *)
Definition classify_fallback (text : string) (categories : value) : M value :=
  try_except (classify_dietary_restrictions (PyStr text) categories true)
    (λ _, mret (PyList [PyStr "Error"])).

(** Lines 124-151: the classification of a row whose trimmed text is
    [text]. *)
Definition classify_text (text : string) (categories : value) : M value :=
  if Str.nonempty text then
    try_except (classify_primary text categories)
      (λ _, classify_fallback text categories)
  else mret (PyList [PyStr "No restrictions"]).

(** Lines 122-153: one row of the file [filename]. *)
Definition process_row (filename column_name : string) (categories : value)
    (r : row) (classifications : table) : M table :=
  approved ← lift (is_approved r);
  if approved : bool then
    text ← lift (Py.strip (row_get r column_name));
    classification ← classify_text text categories;
    cats ← lift (Py.iter classification);
    mret (append_all filename cats classifications)
  else mret classifications.

(** Lines 119-153: the rows of one file from index [i] on; [break] at
    index 10 of a test run. *)
Fixpoint process_rows (test_run : bool) (filename column_name : string)
    (categories : value) (i : nat) (rows : list row) (classifications : table) : M table :=
  match rows with
  | [] => mret classifications
  | r :: rows' =>
      if test_run && (10 <=? i) then mret classifications
      else
        t ← process_row filename column_name categories r classifications;
        process_rows test_run filename column_name categories (S i) rows' t
  end.

(** Lines 116-153: the files of the folder. *)
Fixpoint process_files (test_run : bool) (column_name : string)
    (categories : value) (files : folder) (classifications : table) : M table :=
  match files with
  | [] => mret classifications
  | (filename, rows) :: files' =>
      t ← process_rows test_run filename column_name categories 0 rows classifications;
      process_files test_run column_name categories files' t
  end.

(** [writer.writerow(line)] formats the row and writes it to the file as
    one string, which the file encodes: a character the encoding lacks, in
    the file name or in a category, raises [UnicodeEncodeError] and nothing
    of the row is written.  The other fields, a count or a key of a
    [Counter] that is no string ([None], a boolean, a number), are written
    with [str], in ASCII. *)
Definition field_encodable (v : value) : bool :=
  match v with
  | PyStr s => encodable s
  | _ => true
  end.

Definition row_encodable (line : list value) : bool :=
  forallb field_encodable line.

(** The rows that reach the file: those before the first row that cannot be
    encoded. *)
Fixpoint written (lines : list (list value)) : list (list value) :=
  match lines with
  | [] => []
  | line :: lines' =>
      if row_encodable line then line :: written lines' else []
  end.

(** Lines 165-170: [open(output_file, 'w', newline='')] creates the file,
    the rows are written one by one, and the [with] closes the file, also
    when a row raises; the exception then leaves the function with the file
    on disk, holding the rows written before. *)
Definition write_csv (path : string) (lines : list (list value)) : M unit :=
  λ s, (if forallb row_encodable lines then Ok () else Raise UnicodeEncodeError,
        State (world s) (trace s ++ [WriteCsv path (written lines)])
          ({[path]} ∪ disk s)).

Definition exists_on_disk : M (gset string) := λ s, (Ok (disk s), s).

(** Lines 155-172: the counts, the output path, the output file. *)
Definition write_results (output_file_base : string) (classifications : table) : M unit :=
  counts ← lift (classification_counts classifications);
  existing ← exists_on_disk;
  write_csv (get_unique_filename output_file_base ".csv" existing)
    (header :: data_rows counts).

Definition process_csv_files (data_folder : folder)
    (column_name output_file_base : string) (test_run : bool) : M unit :=
  categories ← get_unique_categories data_folder column_name;
  classifications ←
    process_files test_run column_name categories (csv_files data_folder) [];
  write_results output_file_base classifications.

End Script.

(** ** Vocabulary of the statements *)

(** The providers whose client was created, one per call of
    [classify_dietary_restrictions] (or of [get_unique_categories]), in
    order. *)
Fixpoint attempts (events : list event) : list provider :=
  match events with
  | [] => []
  | NewClient p :: events' => p :: attempts events'
  | _ :: events' => attempts events'
  end.

(** The completions requested: provider and content of the user message,
    in order. *)
Fixpoint completions (events : list event) : list (provider * value) :=
  match events with
  | [] => []
  | ChatCreate p r :: events' => (p, user_content r) :: completions events'
  | _ :: events' => completions events'
  end.

(** The first ten records of every file. *)
Definition first_ten (files : folder) : folder :=
  (λ f, (f.1, take 10 f.2)) <$> files.

(** [v] is the category name [name]. *)
Definition is_name (name : string) (v : value) : bool :=
  match v with
  | PyStr s => String.eqb s name
  | _ => false
  end.

(** How often the name occurs in a list of categories. *)
Fixpoint occurrences (name : string) (cats : list value) : nat :=
  match cats with
  | [] => 0
  | v :: cats' => (if is_name name v then 1 else 0) + occurrences name cats'
  end.

(** A counter as [Counter] builds it: counts are positive, and a name that
    is the key of an entry is the key of no later entry. *)
Fixpoint counter_wf (c : list (value * nat)) : Prop :=
  match c with
  | [] => True
  | (k, n) :: c' =>
      0 < n
      ∧ (∀ name, is_name name k = true → counter_get (PyStr name) c' = 0)
      ∧ counter_wf c'
  end.

(** The classification lists recorded for a file: those of its rows, in
    row order. *)
Fixpoint row_lists_of (filename : string)
    (per_file : list (string * list (list value))) : list (list value) :=
  match per_file with
  | [] => []
  | (f, lists) :: per_file' =>
      if String.eqb f filename then lists ++ row_lists_of filename per_file'
      else row_lists_of filename per_file'
  end.

Section Observers.

Context `{RT : Runtime}.

(** The state after [time.sleep(0.1)]. *)
Definition after_sleep (s : state) : state :=
  State (world s) (trace s ++ [Sleep]) (disk s).

(** [classified categories items s lists s']: from the state [s], the
    sub-texts [items] are classified one after the other, none of the calls
    raises, the call for the i-th sub-text returns a value whose elements
    are the i-th list of [lists], and the state after the last pause is
    [s']. *)
Inductive classified (categories : value) :
    list value → state → list (list value) → state → Prop :=
| classified_nil (s : state) : classified categories [] s [] s
| classified_cons (item c : value) (items more : list value)
    (lists : list (list value)) (s s1 s' : state) :
    classify_dietary_restrictions item categories false s = (Ok c, s1) →
    Py.iter c = Ok more →
    classified categories items (after_sleep s1) lists s' →
    classified categories (item :: items) s (more :: lists) s'.

(** The list a row hands to the append loop of lines 152-153: the elements
    of its classification.  A row that is not approved hands over nothing
    and is given the empty list here. *)
Definition row_categories (column_name : string) (categories : value) (r : row) : M (list value) :=
  approved ← lift (is_approved r);
  if approved : bool then
    text ← lift (Py.strip (row_get r column_name));
    classification ← classify_text text categories;
    lift (Py.iter classification)
  else mret [].

(** The lists of the rows of one file, as [process_rows] meets them. *)
Fixpoint rows_categories (test_run : bool) (column_name : string)
    (categories : value) (i : nat) (rows : list row) : M (list (list value)) :=
  match rows with
  | [] => mret []
  | r :: rows' =>
      if test_run && (10 <=? i) then mret []
      else
        cats ← row_categories column_name categories r;
        lists ← rows_categories test_run column_name categories (S i) rows';
        mret (cats :: lists)
  end.

(** The lists of the rows of every file, as [process_files] meets them. *)
Fixpoint files_categories (test_run : bool) (column_name : string)
    (categories : value) (files : folder) : M (list (string * list (list value))) :=
  match files with
  | [] => mret []
  | (filename, rows) :: files' =>
      lists ← rows_categories test_run column_name categories 0 rows;
      per_file ← files_categories test_run column_name categories files';
      mret ((filename, lists) :: per_file)
  end.

End Observers.

(** ** A concrete runtime for the examples *)

(** A reader for the JSON texts of the examples.  It follows [json.loads] on
    texts whose numbers are integers and whose [\u] escapes stay below 256
    (and on [NaN] and the infinities); it raises on every other text, so it
    is no model of [json.loads] on those.  Its recursion is bounded by a
    fuel of twice the length of the text.  The theorems do not depend on
    it: they hold for every [json_loads]. *)
Module Json.

Definition is_ws (c : ascii) : bool :=
  let n := nat_of_ascii c in (n =? 32) || (n =? 9) || (n =? 10) || (n =? 13).

Fixpoint skip_ws (s : string) : string :=
  match s with
  | String c s' => if is_ws c then skip_ws s' else s
  | EmptyString => EmptyString
  end.

Definition digit (c : ascii) : option Z :=
  let n := nat_of_ascii c in
  if (48 <=? n) && (n <=? 57) then Some (Z.of_nat (n - 48)) else None.

Definition hex (c : ascii) : option nat :=
  let n := nat_of_ascii c in
  if (48 <=? n) && (n <=? 57) then Some (n - 48)
  else if (65 <=? n) && (n <=? 70) then Some (n - 55)
  else if (97 <=? n) && (n <=? 102) then Some (n - 87)
  else None.

(** The digits at the head of [s], as a number continuing [acc]. *)
Fixpoint digits (s : string) (acc : Z) : Z * string :=
  match s with
  | String c s' =>
      match digit c with
      | Some d => digits s' (10 * acc + d)
      | None => (acc, s)
      end
  | EmptyString => (acc, s)
  end.

Definition starts_fraction (s : string) : bool :=
  match s with
  | String c _ => let n := nat_of_ascii c in (n =? 46) || (n =? 101) || (n =? 69)
  | EmptyString => false
  end.

(** An integer without sign: [0], or digits that do not start with [0]. *)
Definition natural (s : string) : option (Z * string) :=
  match s with
  | String c s' =>
      match digit c with
      | Some 0%Z => if starts_fraction s' then None else Some (0%Z, s')
      | Some d =>
          let '(n, rest) := digits s' d in
          if starts_fraction rest then None else Some (n, rest)
      | None => None
      end
  | EmptyString => None
  end.

(** The characters of a string after its opening quote, up to the closing
    one. *)
Fixpoint chars (s : string) : option (string * string) :=
  match s with
  | EmptyString => None
  | String c s' =>
      let n := nat_of_ascii c in
      if n =? 34 then Some (EmptyString, s')
      else if n <? 32 then None
      else if n =? 92 then
        match s' with
        | String e s'' =>
            let k := nat_of_ascii e in
            let plain (a : nat) := '(r, rest) ← chars s''; Some (String (ascii_of_nat a) r, rest) in
            if k =? 34 then plain 34
            else if k =? 92 then plain 92
            else if k =? 47 then plain 47
            else if k =? 98 then plain 8
            else if k =? 102 then plain 12
            else if k =? 110 then plain 10
            else if k =? 114 then plain 13
            else if k =? 116 then plain 9
            else if k =? 117 then
              match s'' with
              | String h1 (String h2 (String h3 (String h4 s3))) =>
                  a ← hex h1; b ← hex h2; c' ← hex h3; d ← hex h4;
                  if (a =? 0) && (b =? 0) then
                    '(r, rest) ← chars s3;
                    Some (String (ascii_of_nat (16 * c' + d)) r, rest)
                  else None
              | _ => None
              end
            else None
        | EmptyString => None
        end
      else '(r, rest) ← chars s'; Some (String c r, rest)
  end.

(** [d[k] = v] *)
Fixpoint dict_set (k : string) (v : value) (d : list (string * value)) : list (string * value) :=
  match d with
  | [] => [(k, v)]
  | (k', v') :: d' =>
      if String.eqb k' k then (k', v) :: d' else (k', v') :: dict_set k v d'
  end.

Definition literal (word : string) (v : value) (s : string) : option (value * string) :=
  if String.prefix word s
  then Some (v, String.substring (String.length word) (String.length s - String.length word) s)
  else None.

Fixpoint parse_value (fuel : nat) (s : string) : option (value * string) :=
  match fuel with
  | 0 => None
  | S fuel' =>
      match s with
      | String c s' =>
          let n := nat_of_ascii c in
          if n =? 91 then
            match skip_ws s' with
            | String c2 s2 =>
                if nat_of_ascii c2 =? 93 then Some (PyList [], s2)
                else parse_elements fuel' (String c2 s2) []
            | EmptyString => None
            end
          else if n =? 123 then
            match skip_ws s' with
            | String c2 s2 =>
                if nat_of_ascii c2 =? 125 then Some (PyDict [], s2)
                else parse_members fuel' (String c2 s2) []
            | EmptyString => None
            end
          else if n =? 34 then '(str, rest) ← chars s'; Some (PyStr str, rest)
          else if n =? 45 then
            match literal "Infinity" (PyFloat neg_infinity) s' with
            | Some r => Some r
            | None => '(z, rest) ← natural s'; Some (PyInt (- z), rest)
            end
          else if n =? 116 then literal "true" (PyBool true) s
          else if n =? 102 then literal "false" (PyBool false) s
          else if n =? 110 then literal "null" PyNone s
          else if n =? 78 then literal "NaN" (PyFloat nan) s
          else if n =? 73 then literal "Infinity" (PyFloat infinity) s
          else '(z, rest) ← natural s; Some (PyInt z, rest)
      | EmptyString => None
      end
  end
with parse_elements (fuel : nat) (s : string) (acc : list value) : option (value * string) :=
  match fuel with
  | 0 => None
  | S fuel' =>
      '(v, rest) ← parse_value fuel' s;
      match skip_ws rest with
      | String c rest' =>
          if nat_of_ascii c =? 93 then Some (PyList (acc ++ [v]), rest')
          else if nat_of_ascii c =? 44
          then parse_elements fuel' (skip_ws rest') (acc ++ [v])
          else None
      | EmptyString => None
      end
  end
with parse_members (fuel : nat) (s : string) (acc : list (string * value)) : option (value * string) :=
  match fuel with
  | 0 => None
  | S fuel' =>
      match s with
      | String q s' =>
          if nat_of_ascii q =? 34 then
            '(k, rest) ← chars s';
            match skip_ws rest with
            | String c rest' =>
                if nat_of_ascii c =? 58 then
                  '(v, rest2) ← parse_value fuel' (skip_ws rest');
                  match skip_ws rest2 with
                  | String c2 rest3 =>
                      if nat_of_ascii c2 =? 125
                      then Some (PyDict (dict_set k v acc), rest3)
                      else if nat_of_ascii c2 =? 44
                      then parse_members fuel' (skip_ws rest3) (dict_set k v acc)
                      else None
                  | EmptyString => None
                  end
                else None
            | EmptyString => None
            end
          else None
      | EmptyString => None
      end
  end.

Definition loads (s : string) : result value :=
  match parse_value (2 * String.length s + 2) (skip_ws s) with
  | Some (v, rest) =>
      match skip_ws rest with
      | EmptyString => Ok v
      | String _ _ => Raise JSONDecodeError
      end
  | None => Raise JSONDecodeError
  end.

End Json.

(** A runtime whose providers answer from a script: the world is the list of
    the answers still to come, one per chat completion, whatever the
    request; clients are always created; a completion asked after the script
    has run out raises.  The locale's encoding is ASCII. *)
Definition scripted : Runtime := {|
  World := list (result string);
  new_client := λ _ w, (Ok (), w);
  chat_create := λ _ _ w,
    match w with
    | [] => (Raise (ProviderError "no answer left"), [])
    | r :: w' => (r, w')
    end;
  json_loads := Json.loads;
  set_iter := elements;
  set_iter_perm := λ s, reflexivity (elements s);
  encodable := Str.is_ascii;
  encodable_ascii := λ _ H, H;
|}.

(** A state of [scripted] before anything has happened. *)
Definition start (answers : list (result string)) (existing : gset string) : @state scripted :=
  @State scripted answers [] existing.

(** The JSON object [{key: [names...]}] as a provider writes it. *)
Definition answer (key : string) (names : list string) : string :=
  "{" +:+ Str.quoted key +:+ ": [" +:+ Str.join ", " (Str.quoted <$> names) +:+ "]}".

Definition dietary_column : string := "Do you have any dietary restrictions?".

(** An approved record with the given answer to the dietary question. *)
Definition approved_row (text : string) : row :=
  <["approval_status" := PyStr "approved"]> (<[dietary_column := PyStr text]> ∅).

(** The row text [["vegan", "no nuts"]] and two answers of the primary
    provider. *)
Definition two_subtexts : string :=
  "[" +:+ Str.quoted "vegan" +:+ ", " +:+ Str.quoted "no nuts" +:+ "]".

Definition two_answers : list (result string) :=
  [Ok (answer "dietary_restrictions" ["Vegan"]);
   Ok (answer "dietary_restrictions" ["Nut-Free"; "Vegan"])].

Definition after_two_calls : @state scripted :=
  @State scripted []
    [NewClient Groq;
     ChatCreate Groq (classify_request (PyStr "vegan") "Vegan, Nut-Free" false);
     Sleep;
     NewClient Groq;
     ChatCreate Groq (classify_request (PyStr "no nuts") "Vegan, Nut-Free" false);
     Sleep] ∅.

(** Both providers fail on the first completion asked of them. *)
Definition both_fail : list (result string) :=
  [Raise (ProviderError "rate limit"); Raise (ProviderError "unreachable")].

Definition one_category : value := PyList [PyStr "Vegan"].

(** The row text [["vegan", "no nuts"]]: the first sub-text is classified,
    the call for the second raises, and so does the fallback. *)
Definition second_call_fails : list (result string) :=
  [Ok (answer "dietary_restrictions" ["Vegan"]);
   Raise (ProviderError "rate limit");
   Ok (answer "dietary_restrictions" ["Nut-Free"])].

Definition after_second_call : @state scripted :=
  @State scripted [Ok (answer "dietary_restrictions" ["Nut-Free"])]
    [NewClient Groq;
     ChatCreate Groq (classify_request (PyStr "vegan") "Vegan, Nut-Free" false);
     Sleep;
     NewClient Groq;
     ChatCreate Groq (classify_request (PyStr "no nuts") "Vegan, Nut-Free" false)]
    ∅.

(** A record that is approved and has no dietary column at all. *)
Definition row_without_column : row :=
  <["approval_status" := PyStr " Approved "]> ∅.

(** A folder of one file whose records are all approved and say "vegan",
    and the same folder with one more record, at index 10. *)
Definition ten_rows : list row := replicate 10 (approved_row "vegan").
Definition ten_row_folder : folder := [("a.csv", ten_rows)].
Definition eleven_row_folder : folder :=
  [("a.csv", ten_rows ++ [approved_row "kosher"])].

Definition test_run_answers : list (result string) :=
  Ok (answer "categories" ["Vegan"; "No restrictions"])
  :: replicate 10 (Ok (answer "dietary_restrictions" ["Vegan"])).

(** [needle in s] *)
Fixpoint contains (needle s : string) : bool :=
  String.prefix needle s
  || match s with
     | String _ s' => contains needle s'
     | EmptyString => false
     end.

(** A runtime whose provider looks at the request.  Asked for categories, it
    answers Kosher and No restrictions when the prompt mentions kosher, and
    Vegan and No restrictions otherwise; asked to classify, it answers with
    the first of these categories that its system prompt offers. *)
Definition reactive : Runtime := {|
  World := unit;
  new_client := λ _ w, (Ok (), w);
  chat_create := λ _ r w,
    (Ok (if String.eqb (system_content r) categories_system then
           match user_content r with
           | PyStr prompt =>
               if contains "kosher" prompt
               then answer "categories" ["Kosher"; "No restrictions"]
               else answer "categories" ["Vegan"; "No restrictions"]
           | _ => answer "categories" []
           end
         else if contains "Kosher" (system_content r)
              then answer "dietary_restrictions" ["Kosher"]
              else answer "dietary_restrictions" ["Vegan"]), w);
  json_loads := Json.loads;
  set_iter := elements;
  set_iter_perm := λ s, reflexivity (elements s);
  encodable := Str.is_ascii;
  encodable_ascii := λ _ H, H;
|}.

(** One file with three approved records, classified as [["Vegan"]],
    [["Vegan", "Gluten-Free"]] and, its text being empty,
    [["No restrictions"]]. *)
Definition three_row_folder : folder :=
  [("a.csv", [approved_row "vegan"; approved_row "vegan, celiac"; approved_row ""])].

Definition three_row_answers : list (result string) :=
  [Ok (answer "categories" ["Vegan"; "Gluten-Free"; "No restrictions"]);
   Ok (answer "dietary_restrictions" ["Vegan"]);
   Ok (answer "dietary_restrictions" ["Vegan"; "Gluten-Free"])].

Definition three_row_run : result () * @state scripted :=
  @process_csv_files scripted three_row_folder dietary_column
    "classification_results" false (start three_row_answers ∅).

(** ** Vocabulary of the further properties *)

(** The paths of the files written, in order. *)
Fixpoint writes (events : list event) : list string :=
  match events with
  | [] => []
  | WriteCsv path _ :: events' => path :: writes events'
  | _ :: events' => writes events'
  end.

(** The model a request names is the one the script uses with the provider
    the request goes to. *)
Definition well_paired (e : event) : Prop :=
  match e with
  | ChatCreate p r => model r = match p with Groq => llama | OpenAI => gpt end
  | _ => True
  end.

(** An event of the category derivation on the unique values [values]. *)
Definition derivation_event (values : list string) (e : event) : Prop :=
  match e with
  | NewClient p => p = Groq
  | ChatCreate p r =>
      p = Groq
      ∧ r = ChatRequest llama categories_system (PyStr (categories_prompt values))
  | Sleep | WriteCsv _ _ => False
  end.

(** An event of the classification loop run with [categories]: a completion
    is requested with the system prompt built from the categories. *)
Definition classification_event (categories : value) (e : event) : Prop :=
  match e with
  | NewClient _ | Sleep => True
  | ChatCreate p r =>
      ∃ text joined use_openai,
        Py.join ", " categories = Ok joined
        ∧ p = provider_of use_openai
        ∧ r = classify_request text joined use_openai
  | WriteCsv _ _ => False
  end.

(** Every pause comes right after a completion asked of the primary
    provider; [prev] is the event before the list. *)
Fixpoint paced_after (prev : option event) (events : list event) : Prop :=
  match events with
  | [] => True
  | e :: events' =>
      (e = Sleep → ∃ r, prev = Some (ChatCreate Groq r))
      ∧ paced_after (Some e) events'
  end.

Definition paced (events : list event) : Prop := paced_after None events.

(** The sum of the counts of a counter. *)
Fixpoint total (c : list (value * nat)) : nat :=
  match c with
  | [] => 0
  | (_, n) :: c' => n + total c'
  end.

(** The names of a list in the order of their first occurrence, those of
    [seen] left out. *)
Fixpoint first_seen_from (seen names : list string) : list string :=
  match names with
  | [] => []
  | x :: names' =>
      if bool_decide (x ∈ seen) then first_seen_from seen names'
      else x :: first_seen_from (x :: seen) names'
  end.

Definition first_seen (names : list string) : list string :=
  first_seen_from [] names.

Section RunObservers.

Context `{RT : Runtime}.

(** The events of the classification loop, for the rows as for the whole
    loop: requests built from the categories, no output written, every pause
    right after a completion of the primary provider. *)
Definition classification_events (categories : value) (s s' : state) : Prop :=
  ∃ events,
    trace s' = trace s ++ events
    ∧ Forall (classification_event categories) events
    ∧ paced events.

End RunObservers.

(** A record on which the first stage raises: its status, or, the record
    being approved, its value in the target column, is no string. *)
Definition unreadable (column_name : string) (r : row) : Prop :=
  is_approved r = Raise AttributeError
  ∨ is_approved r = Ok true
    ∧ Py.strip (row_get r column_name) = Raise AttributeError.

(** A record with the given approval status and answer. *)
Definition status_row (status text : string) : row :=
  <["approval_status" := PyStr status]> (<[dietary_column := PyStr text]> ∅).




(** A short record, as [csv.DictReader] yields it when the line ends before
    the status field: the field is [None]. *)
Definition short_row : row := <["approval_status" := PyNone]> ∅.

(** A category with a letter outside ASCII (e with an acute accent), and a
    provider that offers it beside an ASCII one. *)
Definition accented : string := "V" +:+ String (ascii_of_nat 233) "gan".

Definition accented_answers : list (result string) :=
  [Ok (answer "categories" ["Vegan"; accented]);
   Ok (answer "dietary_restrictions" ["Vegan"; accented])].

Definition accented_run : result () * @state scripted :=
  @process_csv_files scripted [("a.csv", [approved_row "vegan"])] dietary_column
    "classification_results" false (start accented_answers ∅).

(** * Properties *)

(** ** The JSON reader of the examples *)

Example json_loads_ex1 :
  Json.loads ("{" +:+ Str.quoted "dietary_restrictions" +:+ ": [" +:+ Str.quoted "Vegan" +:+ ", " +:+ Str.quoted "Gluten-Free" +:+ "]}")
  = Ok (PyDict [("dietary_restrictions", PyList [PyStr "Vegan"; PyStr "Gluten-Free"])]).
Proof. vm_compute. reflexivity. Qed.
Example json_loads_ex2 : Json.loads "[]" = Ok (PyList []). Proof. reflexivity. Qed.
Example json_loads_ex3 : Json.loads "not json" = Raise JSONDecodeError. Proof. reflexivity. Qed.
Example json_loads_ex4 : Json.loads " [1, -20 , true, null, {}] " = Ok (PyList [PyInt 1; PyInt (-20); PyBool true; PyNone; PyDict []]). Proof. reflexivity. Qed.
Example json_loads_ex5 : Json.loads "[1,]" = Raise JSONDecodeError. Proof. reflexivity. Qed.
Example json_loads_ex6 : Json.loads "" = Raise JSONDecodeError. Proof. reflexivity. Qed.

(** Unfolds the monad of the script down to states and results. *)
Ltac unfold_M :=
  unfold mbind, M_bind, bind, mret, M_ret, ret, lift, try_except, sleep, emit,
    client, create in *.

(** ** The count table *)

Lemma string_eqb_refl (s : string) : String.eqb s s = true.
Proof. by apply String.eqb_eq. Qed.

Lemma entries_dd_append (filename f : string) (cat : value) (t : table) :
  entries f (dd_append filename cat t)
  = if String.eqb filename f then entries f t ++ [cat] else entries f t.
Proof.
  induction t as [|[g cats] t IH]; simpl.
  - rewrite (String.eqb_sym filename f). by destruct (String.eqb f filename).
  - destruct (String.eqb g filename) eqn:Hg; simpl.
    + apply String.eqb_eq in Hg as ->.
      rewrite (String.eqb_sym filename f). by destruct (String.eqb f filename).
    + rewrite IH. destruct (String.eqb g f) eqn:Hgf; [|done].
      apply String.eqb_eq in Hgf as ->. by rewrite String.eqb_sym, Hg.
Qed.

Lemma entries_append_all (filename f : string) (cats : list value) (t : table) :
  entries f (append_all filename cats t)
  = if String.eqb filename f then entries f t ++ cats else entries f t.
Proof.
  revert t. induction cats as [|cat cats IH]; intros t; simpl.
  - destruct (String.eqb filename f); [by rewrite app_nil_r | done].
  - rewrite IH, entries_dd_append.
    destruct (String.eqb filename f); [by rewrite <- app_assoc | done].
Qed.

Lemma entries_append_all_same (filename : string) (cats : list value) (t : table) :
  entries filename (append_all filename cats t) = entries filename t ++ cats.
Proof. by rewrite entries_append_all, string_eqb_refl. Qed.

Lemma append_all_app (filename : string) (cats more : list value) (t : table) :
  append_all filename (cats ++ more) t
  = append_all filename more (append_all filename cats t).
Proof. revert t. induction cats as [|c cats IH]; intros t; simpl; [done | apply IH]. Qed.

(** ** Rows with empty text *)

Section EmptyText.

Context `{RT : Runtime}.

Lemma absent_column_text (r : row) (column_name : string) :
  r !! column_name = None → Py.strip (row_get r column_name) = Ok "".
Proof. intros H. unfold row_get. by rewrite H. Qed.

(** C3.  An approved row whose target column is absent, or holds a text
    that is empty once trimmed, is classified as exactly
    [["No restrictions"]]; the state after the row is the state before it,
    so no client was created and no completion was requested for it. *)
Theorem empty_text_is_no_restrictions
    (filename column_name : string) (categories : value) (r : row)
    (classifications : table) (s : state) :
  is_approved r = Ok true →
  (r !! column_name = None
   ∨ ∃ v, r !! column_name = Some (PyStr v) ∧ Str.strip v = "") →
  ∃ text,
    Py.strip (row_get r column_name) = Ok text
    ∧ classify_text text categories s = (Ok (PyList [PyStr "No restrictions"]), s)
    ∧ process_row filename column_name categories r classifications s
      = (Ok (append_all filename [PyStr "No restrictions"] classifications), s).
Proof.
  intros Happroved Hcol. exists "".
  assert (Htext : Py.strip (row_get r column_name) = Ok "").
  { destruct Hcol as [Hnone | (v & Hv & Hstrip)].
    - by apply absent_column_text.
    - unfold row_get. rewrite Hv. simpl. by rewrite Hstrip. }
  split; [done |]. split; [done |].
  unfold process_row. unfold_M. by rewrite Happroved, Htext.
Qed.

End EmptyText.

Lemma empty_text_is_no_restrictions_witness :
  is_approved (approved_row "   ") = Ok true
  ∧ ∃ text,
      Py.strip (row_get (approved_row "   ") dietary_column) = Ok text
      ∧ @classify_text scripted text (PyList [PyStr "Vegan"]) (start [] ∅)
        = (Ok (PyList [PyStr "No restrictions"]), start [] ∅)
      ∧ @process_row scripted "a.csv" dietary_column (PyList [PyStr "Vegan"])
          (approved_row "   ") [] (start [] ∅)
        = (Ok (append_all "a.csv" [PyStr "No restrictions"] []), start [] ∅).
Proof.
  split; [reflexivity |].
  apply (@empty_text_is_no_restrictions scripted).
  - reflexivity.
  - right. exists "   ". split; reflexivity.
Defined.

(** ** What a row contributes *)

Section RowContribution.

Context `{RT : Runtime}.

(** The classification of a non-empty text, case by case: the primary
    attempt, else the one fallback attempt, else the sentinel. *)
Lemma classify_text_cases (text : string) (categories : value) (s : state) :
  Str.nonempty text = true →
  classify_text text categories s
  = match classify_primary text categories s with
    | (Ok c, s1) => (Ok c, s1)
    | (Raise _, s1) =>
        match classify_dietary_restrictions (PyStr text) categories true s1 with
        | (Ok c, s2) => (Ok c, s2)
        | (Raise _, s2) => (Ok (PyList [PyStr "Error"]), s2)
        end
    end.
Proof.
  intros Hne. unfold classify_text, classify_fallback. rewrite Hne. unfold_M.
  destruct (classify_primary text categories s) as [[c|e] s1]; [done |].
  by destruct (classify_dietary_restrictions (PyStr text) categories true s1)
    as [[c|e'] s2].
Qed.

Lemma classify_text_never_raises (text : string) (categories : value) (s : state) :
  ∃ c s', classify_text text categories s = (Ok c, s').
Proof.
  destruct (Str.nonempty text) eqn:Hne.
  - rewrite classify_text_cases by done.
    destruct (classify_primary text categories s) as [[c|e] s1]; [by eauto |].
    destruct (classify_dietary_restrictions (PyStr text) categories true s1)
      as [[c|e'] s2]; by eauto.
  - unfold classify_text. rewrite Hne. by eauto.
Qed.

(** C1, amended.  An approved row that is processed appends to the table of
    its file exactly the elements of its classification, in order and
    without dropping repetitions:
    - ["No restrictions"] alone when the trimmed text is empty;
    - ["Error"] alone when the primary attempt and the fallback both raise;
    - otherwise the elements of what the primary attempt, or else the
      fallback, returned.
    At least one entry is appended in the first two cases and whenever the
    returned value has an element; a returned empty list appends nothing. *)
Theorem row_appends_its_classification
    (filename column_name : string) (categories : value) (r : row)
    (classifications t' : table) (s s' : state) :
  is_approved r = Ok true →
  process_row filename column_name categories r classifications s = (Ok t', s') →
  ∃ text classification cats,
    Py.strip (row_get r column_name) = Ok text
    ∧ classify_text text categories s = (Ok classification, s')
    ∧ Py.iter classification = Ok cats
    ∧ t' = append_all filename cats classifications
    ∧ entries filename t' = entries filename classifications ++ cats
    ∧ (text = "" → cats = [PyStr "No restrictions"])
    ∧ (text ≠ "" →
       match classify_primary text categories s with
       | (Ok c, _) => classification = c
       | (Raise _, s1) =>
           match classify_dietary_restrictions (PyStr text) categories true s1 with
           | (Ok c, _) => classification = c
           | (Raise _, _) => cats = [PyStr "Error"]
           end
       end).
Proof.
  intros Happroved Hrow. unfold process_row in Hrow. unfold_M.
  rewrite Happroved in Hrow.
  destruct (Py.strip (row_get r column_name)) as [text|e] eqn:Htext; [|done].
  destruct (classify_text text categories s) as [[c|e] s1] eqn:Hc; [|done].
  destruct (Py.iter c) as [cats|e] eqn:Hiter; [|done].
  injection Hrow as <- <-.
  exists text, c, cats. repeat split; try done.
  - apply entries_append_all_same.
  - intros ->. unfold classify_text in Hc. simpl in Hc. unfold_M.
    injection Hc as <- _. simpl in Hiter. by injection Hiter as <-.
  - intros Hne. assert (Str.nonempty text = true) as Hnonempty
      by (by destruct text).
    rewrite classify_text_cases in Hc by done.
    destruct (classify_primary text categories s) as [[c1|e1] s2].
    + by injection Hc as <- _.
    + destruct (classify_dietary_restrictions (PyStr text) categories true s2)
        as [[c2|e2] s3].
      * by injection Hc as <- _.
      * injection Hc as <- _. simpl in Hiter. by injection Hiter as <-.
Qed.

End RowContribution.

Lemma row_appends_its_classification_witness :
  is_approved (approved_row "vegan, celiac") = Ok true
  ∧ ∃ text classification cats,
      Py.strip (row_get (approved_row "vegan, celiac") dietary_column) = Ok text
      ∧ @classify_text scripted text (PyList [PyStr "Vegan"; PyStr "Gluten-Free"])
          (start [Ok (answer "dietary_restrictions" ["Vegan"; "Gluten-Free"])] ∅)
        = (Ok classification,
           @State scripted []
             [NewClient Groq;
              ChatCreate Groq
                (classify_request (PyStr "vegan, celiac") "Vegan, Gluten-Free" false);
              Sleep] ∅)
      ∧ Py.iter classification = Ok cats
      ∧ [("a.csv", [PyStr "Vegan"; PyStr "Gluten-Free"])]
        = append_all "a.csv" cats []
      ∧ entries "a.csv" [("a.csv", [PyStr "Vegan"; PyStr "Gluten-Free"])]
        = entries "a.csv" [] ++ cats
      ∧ (text = "" → cats = [PyStr "No restrictions"])
      ∧ (text ≠ "" →
         match @classify_primary scripted text (PyList [PyStr "Vegan"; PyStr "Gluten-Free"])
                 (start [Ok (answer "dietary_restrictions" ["Vegan"; "Gluten-Free"])] ∅) with
         | (Ok c, _) => classification = c
         | (Raise _, s1) =>
             match @classify_dietary_restrictions scripted (PyStr text)
                     (PyList [PyStr "Vegan"; PyStr "Gluten-Free"]) true s1 with
             | (Ok c, _) => classification = c
             | (Raise _, _) => cats = [PyStr "Error"]
             end
         end).
Proof.
  split; [reflexivity |].
  apply (@row_appends_its_classification scripted "a.csv" dietary_column
           (PyList [PyStr "Vegan"; PyStr "Gluten-Free"])
           (approved_row "vegan, celiac") []).
  - reflexivity.
  - reflexivity.
Defined.

(** C1 as stated fails: an approved row can be processed and append nothing.
    The text [[]] is a JSON array without sub-texts, so no classification is
    made and the classification stays the empty list; and a provider's
    answer without the key ["dietary_restrictions"] is read as the empty
    list. *)
Lemma approved_row_can_append_nothing :
  is_approved (approved_row "[]") = Ok true
  ∧ @process_row scripted "a.csv" dietary_column (PyList [PyStr "Vegan"])
      (approved_row "[]") [] (start [] ∅)
    = (Ok [], start [] ∅)
  ∧ is_approved (approved_row "vegan") = Ok true
  ∧ fst (@process_row scripted "a.csv" dietary_column (PyList [PyStr "Vegan"])
           (approved_row "vegan") [] (start [Ok "{}"] ∅))
    = Ok [].
Proof. repeat split; reflexivity. Qed.

(** ** Category derivation and the provider's answer *)

Section CategoryAnswer.

Context `{RT : Runtime}.

(** C2, amended.  Once the rows are read, the client is created and the
    completion has returned [content], [get_unique_categories] depends on
    [content] as follows:
    - a JSON object without the key ["categories"] gives the empty list,
      and no exception;
    - a JSON object with the key gives the value under it;
    - content that [json.loads] rejects raises that exception out of
      [get_unique_categories];
    - content that is JSON but no object raises [AttributeError] out of
      it. *)
Theorem categories_from_answer
    (data_folder : folder) (column_name content : string)
    (unique_values : gset string) (s : state) (w1 w2 : World) :
  unique_values_of data_folder column_name = Ok unique_values →
  new_client Groq (world s) = (Ok (), w1) →
  chat_create Groq
    (ChatRequest llama categories_system
       (PyStr (categories_prompt (set_iter unique_values)))) w1
  = (Ok content, w2) →
  fst (get_unique_categories data_folder column_name s)
  = match json_loads content with
    | Ok (PyDict d) =>
        match Py.assoc "categories" d with
        | None => Ok (PyList [])
        | Some v => Ok v
        end
    | Ok _ => Raise AttributeError
    | Raise e => Raise e
    end.
Proof.
  intros Hu Hclient Hcreate. unfold get_unique_categories. unfold_M.
  rewrite Hu, Hclient. simpl. rewrite Hcreate.
  destruct (json_loads content) as [v|e]; [|done].
  destruct v; try done. simpl. by destruct (Py.assoc "categories" d).
Qed.

End CategoryAnswer.

Lemma categories_from_answer_witness :
  fst (@get_unique_categories scripted [("a.csv", [approved_row "vegan"])]
         dietary_column (start [Ok "{}"] ∅))
  = match Json.loads "{}" with
    | Ok (PyDict d) =>
        match Py.assoc "categories" d with
        | None => Ok (PyList [])
        | Some v => Ok v
        end
    | Ok _ => Raise AttributeError
    | Raise e => Raise e
    end.
Proof.
  apply (@categories_from_answer scripted [("a.csv", [approved_row "vegan"])]
           dietary_column "{}" {["vegan"]} (start [Ok "{}"] ∅) [Ok "{}"] []).
  - reflexivity.
  - reflexivity.
  - reflexivity.
Defined.

(** C2 as stated fails for content that is not valid JSON: the exception of
    [json.loads] leaves [get_unique_categories], and with it
    [process_csv_files], which ends without writing an output file. *)
Lemma invalid_json_categories_raise :
  Json.loads "not json" = Raise JSONDecodeError
  ∧ fst (@get_unique_categories scripted [("a.csv", [approved_row "vegan"])]
           dietary_column (start [Ok "not json"] ∅))
    = Raise JSONDecodeError
  ∧ @process_csv_files scripted [("a.csv", [approved_row "vegan"])]
      dietary_column "classification_results" false (start [Ok "not json"] ∅)
    = (Raise JSONDecodeError,
       @State scripted []
         [NewClient Groq;
          ChatCreate Groq
            (ChatRequest llama categories_system
               (PyStr (categories_prompt ["vegan"])))] ∅).
Proof. repeat split; reflexivity. Qed.

(** ** Classification calls and their events *)

Lemma attempts_app (e1 e2 : list event) : attempts (e1 ++ e2) = attempts e1 ++ attempts e2.
Proof.
  induction e1 as [|[] e1 IH]; simpl; try done. by rewrite IH.
Qed.

Lemma completions_app (e1 e2 : list event) :
  completions (e1 ++ e2) = completions e1 ++ completions e2.
Proof.
  induction e1 as [|[] e1 IH]; simpl; try done. by rewrite IH.
Qed.

Lemma startswith_nonempty (p text : string) :
  Str.nonempty p = true → Str.startswith p text = true → Str.nonempty text = true.
Proof. by destruct p, text. Qed.

Section Calls.

Context `{RT : Runtime}.

(** One call of [classify_dietary_restrictions]: a client is created, then
    at most one completion is requested, for the text given; a call that
    returns has requested it. *)
Lemma classify_events (text categories : value) (use_openai : bool)
    (s s' : state) (r : result value) :
  classify_dietary_restrictions text categories use_openai s = (r, s') →
  disk s' = disk s
  ∧ ∃ events,
      trace s' = trace s ++ events
      ∧ attempts events = [provider_of use_openai]
      ∧ (completions events = [] ∧ is_ok r = false
         ∨ completions events = [(provider_of use_openai, text)]).
Proof.
  unfold classify_dietary_restrictions. unfold_M. intros H.
  destruct (new_client (provider_of use_openai) (world s)) as [[[]|e] w1];
    simpl in H.
  2:{ injection H as <- <-. split; [done |].
      exists [NewClient (provider_of use_openai)]. by eauto. }
  destruct (Py.join ", " categories) as [joined|e].
  2:{ injection H as <- <-. split; [done |].
      exists [NewClient (provider_of use_openai)]. by eauto. }
  simpl in H.
  destruct (chat_create _ _ w1) as [[content|e] w2]; simpl in H.
  - destruct (json_loads content) as [v|e]; simpl in H.
    + injection H as <- <-; simpl. split; [done |].
      exists [NewClient (provider_of use_openai);
              ChatCreate (provider_of use_openai)
                (classify_request text joined use_openai)].
      rewrite <- app_assoc. by eauto.
    + injection H as <- <-; simpl. split; [done |].
      exists [NewClient (provider_of use_openai);
              ChatCreate (provider_of use_openai)
                (classify_request text joined use_openai)].
      rewrite <- app_assoc. by eauto.
  - injection H as <- <-; simpl. split; [done |].
    exists [NewClient (provider_of use_openai);
            ChatCreate (provider_of use_openai)
              (classify_request text joined use_openai)].
    rewrite <- app_assoc. by eauto.
Qed.

(** The request of a call is made as soon as the client is created and the
    categories join: the events of the call are then the client and the
    request, for the text given, with the model of the provider and the
    prompt built from the categories.  A call that requested nothing has
    raised. *)
Lemma classify_requests (text categories : value) (use_openai : bool)
    (s s' : state) (r : result value) (events : list event) :
  classify_dietary_restrictions text categories use_openai s = (r, s') →
  trace s' = trace s ++ events →
  (∀ w1 joined,
     new_client (provider_of use_openai) (world s) = (Ok (), w1) →
     Py.join ", " categories = Ok joined →
     events = [NewClient (provider_of use_openai);
               ChatCreate (provider_of use_openai)
                 (classify_request text joined use_openai)])
  ∧ (completions events = [] → is_ok r = false).
Proof.
  unfold classify_dietary_restrictions. unfold_M. intros H Htrace.
  destruct (new_client (provider_of use_openai) (world s)) as [[[]|e] w1];
    simpl in H.
  2:{ injection H as <- <-. by split. }
  destruct (Py.join ", " categories) as [joined|e]; simpl in H.
  2:{ injection H as <- <-. by split. }
  assert (Hevents : events
                    = [NewClient (provider_of use_openai);
                       ChatCreate (provider_of use_openai)
                         (classify_request text joined use_openai)]).
  { apply (app_inv_head (trace s)). rewrite <- Htrace.
    destruct (chat_create _ _ w1) as [[content|e] w2]; simpl in H.
    - destruct (json_loads content); injection H as <- <-; simpl;
        by rewrite <- app_assoc.
    - injection H as <- <-; simpl. by rewrite <- app_assoc. }
  split.
  - by intros w1' joined' _ [= <-].
  - by rewrite Hevents.
Qed.

Lemma classify_items_classified (categories : value) (items : list value)
    (lists : list (list value)) (s s' : state) :
  classified categories items s lists s' →
  ∀ classification,
    classify_items items categories classification s
    = (Ok (PyList (classification ++ concat lists)), s').
Proof.
  induction 1 as [s|item c items more lists s s1 s' Hcall Hiter _ IH];
    intros classification; simpl.
  - unfold_M. by rewrite app_nil_r.
  - unfold_M. rewrite Hcall, Hiter. simpl.
    change (State (world s1) (trace s1 ++ [Sleep]) (disk s1)) with (after_sleep s1).
    by rewrite IH, app_assoc.
Qed.

Lemma classified_events (categories : value) (items : list value)
    (lists : list (list value)) (s s' : state) :
  classified categories items s lists s' →
  length lists = length items
  ∧ disk s' = disk s
  ∧ ∃ events,
      trace s' = trace s ++ events
      ∧ attempts events = replicate (length items) Groq
      ∧ completions events = (λ item, (Groq, item)) <$> items.
Proof.
  induction 1 as [s|item c items more lists s s1 s' Hcall Hiter _ IH]; simpl.
  - split; [done |]. split; [done |]. exists []. by rewrite app_nil_r.
  - destruct IH as (Hlen & Hdisk & events & Htrace & Hattempts & Hcompl).
    apply classify_events in Hcall
      as (Hdisk1 & events1 & Htrace1 & Hattempts1 & [[_ Habs] | Hcompl1]);
      [done |].
    split; [by rewrite Hlen |]. split; [by rewrite Hdisk |].
    exists (events1 ++ [Sleep] ++ events). split.
    + rewrite Htrace. simpl. rewrite Htrace1. by rewrite <- !app_assoc.
    + rewrite !attempts_app, !completions_app, Hattempts1, Hcompl1. simpl.
      by rewrite Hattempts, Hcompl.
Qed.

(** C4.  A row whose trimmed text starts with "[" and ends with "]" and is
    read by [json.loads] as the array [items], and for which none of the
    classification calls raises: the calls made are exactly one per
    sub-text, all to the primary provider, with the sub-texts as user
    messages in array order; and the row's classification is the
    concatenation, in that order, of the lists the calls returned. *)
Theorem json_array_row_classification
    (text : string) (categories : value) (items : list value)
    (lists : list (list value)) (s s' : state) :
  Str.startswith "[" text = true →
  Str.endswith "]" text = true →
  json_loads text = Ok (PyList items) →
  classified categories items s lists s' →
  classify_text text categories s = (Ok (PyList (concat lists)), s')
  ∧ length lists = length items
  ∧ ∃ events,
      trace s' = trace s ++ events
      ∧ attempts events = replicate (length items) Groq
      ∧ completions events = (λ item, (Groq, item)) <$> items.
Proof.
  intros Hstart Hend Hloads Hclassified.
  split; [| by apply classified_events in Hclassified as (? & _ & ?)].
  rewrite classify_text_cases by (by apply (startswith_nonempty "[")).
  unfold classify_primary. rewrite Hstart, Hend. simpl. unfold_M.
  rewrite Hloads. simpl.
  by rewrite (classify_items_classified _ _ _ _ _ Hclassified []).
Qed.

End Calls.

Lemma json_array_row_classification_witness :
  @classify_text scripted two_subtexts (PyList [PyStr "Vegan"; PyStr "Nut-Free"])
    (start two_answers ∅)
  = (Ok (PyList (concat [[PyStr "Vegan"]; [PyStr "Nut-Free"; PyStr "Vegan"]])),
     after_two_calls)
  ∧ length [[PyStr "Vegan"]; [PyStr "Nut-Free"; PyStr "Vegan"]]
    = length [PyStr "vegan"; PyStr "no nuts"]
  ∧ ∃ events,
      trace after_two_calls = trace (start two_answers ∅) ++ events
      ∧ attempts events = replicate (length [PyStr "vegan"; PyStr "no nuts"]) Groq
      ∧ completions events
        = (λ item, (Groq, item)) <$> [PyStr "vegan"; PyStr "no nuts"].
Proof.
  apply (@json_array_row_classification scripted).
  - reflexivity.
  - reflexivity.
  - reflexivity.
  - eapply classified_cons; [reflexivity | reflexivity |].
    eapply classified_cons; [reflexivity | reflexivity |].
    apply classified_nil.
Defined.

(** ** Failure of the primary attempt *)

Section Fallback.

Context `{RT : Runtime}.

Lemma groq_only : OpenAI ∉ [Groq].
Proof. rewrite not_elem_of_cons. split; [done | apply not_elem_of_nil]. Qed.

Lemma classify_items_events (categories : value) (items classification : list value)
    (s s' : state) (r : result value) :
  classify_items items categories classification s = (r, s') →
  disk s' = disk s
  ∧ ∃ events, trace s' = trace s ++ events ∧ OpenAI ∉ attempts events.
Proof.
  revert classification s.
  induction items as [|item items IH]; intros classification s; simpl.
  - unfold_M. intros H; injection H as <- <-. split; [done |]. exists [].
    rewrite app_nil_r. split; [done | apply not_elem_of_nil].
  - unfold_M. intros H.
    destruct (classify_dietary_restrictions item categories false s)
      as [[c|e] s1] eqn:Hcall;
      apply classify_events in Hcall
        as (Hdisk1 & events1 & Htrace1 & Hattempts1 & _).
    2:{ injection H as <- <-. split; [done |]. exists events1.
        split; [done |]. rewrite Hattempts1. apply groq_only. }
    destruct (Py.iter c) as [more|e]; simpl in H.
    2:{ injection H as <- <-. split; [done |]. exists events1.
        split; [done |]. rewrite Hattempts1. apply groq_only. }
    apply IH in H as (Hdisk & events & Htrace & Hattempts). simpl in *.
    split; [congruence |].
    exists (events1 ++ [Sleep] ++ events). split.
    + rewrite Htrace, Htrace1. by rewrite <- !app_assoc.
    + rewrite !attempts_app, Hattempts1. simpl.
      rewrite not_elem_of_cons. by split.
Qed.

(** The primary attempt creates no client of the fallback provider. *)
Lemma classify_primary_events (text : string) (categories : value)
    (s s' : state) (r : result value) :
  classify_primary text categories s = (r, s') →
  disk s' = disk s
  ∧ ∃ events, trace s' = trace s ++ events ∧ OpenAI ∉ attempts events.
Proof.
  unfold classify_primary.
  destruct (Str.startswith "[" text && Str.endswith "]" text).
  - unfold_M. destruct (json_loads text) as [text_list|e]; simpl.
    2:{ intros H; injection H as <- <-. split; [done |]. exists []. rewrite app_nil_r.
        split; [done | apply not_elem_of_nil]. }
    destruct (Py.iter text_list) as [items|e]; simpl.
    2:{ intros H; injection H as <- <-. split; [done |]. exists []. rewrite app_nil_r.
        split; [done | apply not_elem_of_nil]. }
    apply classify_items_events.
  - unfold_M. intros H.
    destruct (classify_dietary_restrictions (PyStr text) categories false s)
      as [[c|e] s1] eqn:Hcall;
      apply classify_events in Hcall
        as (Hdisk1 & events1 & Htrace1 & Hattempts1 & _);
      injection H as <- <-; simpl.
    + split; [done |]. exists (events1 ++ [Sleep]). split.
      * by rewrite Htrace1, <- app_assoc.
      * rewrite attempts_app, Hattempts1. simpl. apply groq_only.
    + split; [done |]. exists events1. split; [done |].
      rewrite Hattempts1. apply groq_only.
Qed.

Lemma process_rows_cons (test_run : bool) (filename column_name : string)
    (categories : value) (i : nat) (r : row) (rows : list row) (t : table) :
  process_rows test_run filename column_name categories i (r :: rows) t
  = if test_run && (10 <=? i) then mret t
    else
      t' ← process_row filename column_name categories r t;
      process_rows test_run filename column_name categories (S i) rows t'.
Proof. reflexivity. Qed.

(** C5.  When the primary attempt for a row's text raises, having called
    the fallback provider not once, the handler calls
    [classify_dietary_restrictions] with [use_openai=True] exactly once, on
    the row's text: one client of the fallback provider is created, and as
    soon as it is created and the categories join, the one completion is
    requested, of the fallback's model, for the row's text; a fallback that
    requested nothing has raised.  What that call returns is the row's
    classification; if it raises, the classification is exactly
    [["Error"]], the row appends that one entry without raising, and the
    loop over the rows goes on with the next row. *)
Theorem fallback_once_then_error
    (filename column_name text : string) (categories : value) (r : row)
    (classifications : table) (s s1 : state) (e : exn) :
  is_approved r = Ok true →
  Py.strip (row_get r column_name) = Ok text →
  Str.nonempty text = true →
  classify_primary text categories s = (Raise e, s1) →
  ∃ outcome s2 before after,
    classify_dietary_restrictions (PyStr text) categories true s1 = (outcome, s2)
    ∧ trace s1 = trace s ++ before
    ∧ (OpenAI ∉ attempts before)
    ∧ trace s2 = trace s1 ++ after
    ∧ attempts after = [OpenAI]
    ∧ (completions after = [] ∨ completions after = [(OpenAI, PyStr text)])
    ∧ (∀ w1 joined,
         new_client OpenAI (world s1) = (Ok (), w1) →
         Py.join ", " categories = Ok joined →
         after = [NewClient OpenAI;
                  ChatCreate OpenAI (classify_request (PyStr text) joined true)])
    ∧ (completions after = [] → is_ok outcome = false)
    ∧ classify_text text categories s
      = (Ok (match outcome with
             | Ok c => c
             | Raise _ => PyList [PyStr "Error"]
             end), s2)
    ∧ (is_ok outcome = false →
       process_row filename column_name categories r classifications s
       = (Ok (append_all filename [PyStr "Error"] classifications), s2)
       ∧ ∀ (test_run : bool) (i : nat) (rows : list row),
           (test_run && (10 <=? i)) = false →
           process_rows test_run filename column_name categories i
             (r :: rows) classifications s
           = process_rows test_run filename column_name categories (S i)
               rows (append_all filename [PyStr "Error"] classifications) s2).
Proof.
  intros Happroved Htext Hne Hprimary.
  destruct (classify_dietary_restrictions (PyStr text) categories true s1)
    as [outcome s2] eqn:Hfallback.
  pose proof Hprimary as Hp.
  apply classify_primary_events in Hp as (_ & before & Hbefore & Hno).
  pose proof Hfallback as Hf.
  apply classify_events in Hf as (_ & after & Hafter & Hattempts & Hcompl).
  destruct (classify_requests _ _ _ _ _ _ _ Hfallback Hafter)
    as [Hrequest Hnone].
  assert (Hclass : classify_text text categories s
                   = (Ok (match outcome with
                          | Ok c => c
                          | Raise _ => PyList [PyStr "Error"]
                          end), s2)).
  { rewrite classify_text_cases, Hprimary, Hfallback by done.
    by destruct outcome. }
  assert (Hrow : is_ok outcome = false →
                 process_row filename column_name categories r classifications s
                 = (Ok (append_all filename [PyStr "Error"] classifications), s2)).
  { intros Hfail. unfold process_row. unfold_M.
    rewrite Happroved, Htext, Hclass. by destruct outcome. }
  exists outcome, s2, before, after.
  split; [done |]. split; [done |]. split; [done |]. split; [done |].
  split; [done |]. split; [destruct Hcompl as [[? _] | ?]; by eauto |].
  split; [exact Hrequest |]. split; [exact Hnone |].
  split; [done |]. intros Hfail. split; [by apply Hrow |].
  intros test_run i rows Hgo. rewrite process_rows_cons, Hgo.
  unfold_M. by rewrite (Hrow Hfail).
Qed.

(** C9.  A row whose text is a JSON array, some of whose sub-texts have been
    classified and accumulated when the call for the next sub-text raises:
    the fallback is one call on the whole trimmed text of the row, brackets
    included.  As soon as its client is created and the categories join,
    its one request is made, and the user message of that request is the
    whole text; a fallback that requested nothing has raised.  The row's
    classification is what that call returns, or [["Error"]] if it raises;
    the lists accumulated before the failure are no part of it. *)
Theorem array_failure_falls_back_on_whole_text
    (text : string) (categories text_list item : value)
    (classified_items rest : list value) (lists : list (list value))
    (s s_mid s1 : state) (e : exn) :
  Str.startswith "[" text = true →
  Str.endswith "]" text = true →
  json_loads text = Ok text_list →
  Py.iter text_list = Ok (classified_items ++ item :: rest) →
  classified categories classified_items s lists s_mid →
  classify_dietary_restrictions item categories false s_mid = (Raise e, s1) →
  ∃ outcome s2 after,
    classify_dietary_restrictions (PyStr text) categories true s1 = (outcome, s2)
    ∧ trace s2 = trace s1 ++ after
    ∧ attempts after = [OpenAI]
    ∧ (completions after = [] ∨ completions after = [(OpenAI, PyStr text)])
    ∧ (∀ w1 joined,
         new_client OpenAI (world s1) = (Ok (), w1) →
         Py.join ", " categories = Ok joined →
         after = [NewClient OpenAI;
                  ChatCreate OpenAI (classify_request (PyStr text) joined true)])
    ∧ (completions after = [] → is_ok outcome = false)
    ∧ classify_text text categories s
      = (Ok (match outcome with
             | Ok c => c
             | Raise _ => PyList [PyStr "Error"]
             end), s2).
Proof.
  intros Hstart Hend Hloads Hiter Hclassified Hcall.
  assert (Hprimary : classify_primary text categories s = (Raise e, s1)).
  { unfold classify_primary. rewrite Hstart, Hend. simpl. unfold_M.
    rewrite Hloads. simpl. rewrite Hiter. simpl.
    generalize (@nil value).
    clear Hiter. induction Hclassified
      as [s|item' c items more lists s s0 s' Hcall' Hiter' _ IH];
      intros classification; simpl; unfold_M.
    - by rewrite Hcall.
    - rewrite Hcall', Hiter'. simpl. by apply IH. }
  destruct (classify_dietary_restrictions (PyStr text) categories true s1)
    as [outcome s2] eqn:Hfallback.
  pose proof Hfallback as Hf.
  apply classify_events in Hf as (_ & after & Hafter & Hattempts & Hcompl).
  destruct (classify_requests _ _ _ _ _ _ _ Hfallback Hafter)
    as [Hrequest Hnone].
  exists outcome, s2, after.
  split; [done |]. split; [done |]. split; [done |].
  split; [destruct Hcompl as [[? _] | ?]; by eauto |].
  split; [exact Hrequest |]. split; [exact Hnone |].
  rewrite classify_text_cases, Hprimary, Hfallback
    by (by apply (startswith_nonempty "[")).
  by destruct outcome.
Qed.

End Fallback.

Lemma fallback_once_then_error_witness :
  ∃ outcome s2 before after,
    @classify_dietary_restrictions scripted (PyStr "vegan") one_category true
      (@State scripted [Raise (ProviderError "unreachable")]
         [NewClient Groq;
          ChatCreate Groq (classify_request (PyStr "vegan") "Vegan" false)] ∅)
    = (outcome, s2)
    ∧ [NewClient Groq;
       ChatCreate Groq (classify_request (PyStr "vegan") "Vegan" false)]
      = trace (start both_fail ∅) ++ before
    ∧ (OpenAI ∉ attempts before)
    ∧ trace s2
      = [NewClient Groq;
         ChatCreate Groq (classify_request (PyStr "vegan") "Vegan" false)]
        ++ after
    ∧ attempts after = [OpenAI]
    ∧ (completions after = [] ∨ completions after = [(OpenAI, PyStr "vegan")])
    ∧ (∀ w1 joined,
         @new_client scripted OpenAI [Raise (ProviderError "unreachable")]
         = (Ok (), w1) →
         Py.join ", " one_category = Ok joined →
         after = [NewClient OpenAI;
                  ChatCreate OpenAI
                    (classify_request (PyStr "vegan") joined true)])
    ∧ (completions after = [] → is_ok outcome = false)
    ∧ @classify_text scripted "vegan" one_category (start both_fail ∅)
      = (Ok (match outcome with
             | Ok c => c
             | Raise _ => PyList [PyStr "Error"]
             end), s2)
    ∧ (is_ok outcome = false →
       @process_row scripted "a.csv" dietary_column one_category
         (approved_row "vegan") [] (start both_fail ∅)
       = (Ok (append_all "a.csv" [PyStr "Error"] []), s2)
       ∧ ∀ (test_run : bool) (i : nat) (rows : list row),
           (test_run && (10 <=? i)) = false →
           @process_rows scripted test_run "a.csv" dietary_column one_category i
             (approved_row "vegan" :: rows) [] (start both_fail ∅)
           = @process_rows scripted test_run "a.csv" dietary_column one_category
               (S i) rows (append_all "a.csv" [PyStr "Error"] []) s2).
Proof.
  apply (@fallback_once_then_error scripted "a.csv" dietary_column "vegan"
           one_category (approved_row "vegan") [] (start both_fail ∅)
           (@State scripted [Raise (ProviderError "unreachable")]
              [NewClient Groq;
               ChatCreate Groq (classify_request (PyStr "vegan") "Vegan" false)] ∅)
           (ProviderError "rate limit")).
  - reflexivity.
  - reflexivity.
  - reflexivity.
  - reflexivity.
Defined.

Lemma array_failure_falls_back_on_whole_text_witness :
  ∃ outcome s2 after,
    @classify_dietary_restrictions scripted (PyStr two_subtexts)
      (PyList [PyStr "Vegan"; PyStr "Nut-Free"]) true after_second_call
    = (outcome, s2)
    ∧ trace s2 = trace after_second_call ++ after
    ∧ attempts after = [OpenAI]
    ∧ (completions after = []
       ∨ completions after = [(OpenAI, PyStr two_subtexts)])
    ∧ (∀ w1 joined,
         @new_client scripted OpenAI (world after_second_call) = (Ok (), w1) →
         Py.join ", " (PyList [PyStr "Vegan"; PyStr "Nut-Free"]) = Ok joined →
         after = [NewClient OpenAI;
                  ChatCreate OpenAI
                    (classify_request (PyStr two_subtexts) joined true)])
    ∧ (completions after = [] → is_ok outcome = false)
    ∧ @classify_text scripted two_subtexts
        (PyList [PyStr "Vegan"; PyStr "Nut-Free"]) (start second_call_fails ∅)
      = (Ok (match outcome with
             | Ok c => c
             | Raise _ => PyList [PyStr "Error"]
             end), s2).
Proof.
  apply (@array_failure_falls_back_on_whole_text scripted two_subtexts
           (PyList [PyStr "Vegan"; PyStr "Nut-Free"])
           (PyList [PyStr "vegan"; PyStr "no nuts"]) (PyStr "no nuts")
           [PyStr "vegan"] [] [[PyStr "Vegan"]] (start second_call_fails ∅)
           (@State scripted
              [Raise (ProviderError "rate limit");
               Ok (answer "dietary_restrictions" ["Nut-Free"])]
              [NewClient Groq;
               ChatCreate Groq
                 (classify_request (PyStr "vegan") "Vegan, Nut-Free" false);
               Sleep] ∅)
           after_second_call (ProviderError "rate limit")).
  - reflexivity.
  - reflexivity.
  - reflexivity.
  - reflexivity.
  - eapply classified_cons; [reflexivity | reflexivity |]. apply classified_nil.
  - reflexivity.
Defined.

(** In that run the row is classified as what the fallback returned for the
    whole text; the list accumulated for the first sub-text is gone. *)
Example array_failure_discards_accumulated :
  fst (@classify_text scripted two_subtexts
         (PyList [PyStr "Vegan"; PyStr "Nut-Free"]) (start second_call_fails ∅))
  = Ok (PyList [PyStr "Nut-Free"])
  ∧ completions (trace (snd (@classify_text scripted two_subtexts
         (PyList [PyStr "Vegan"; PyStr "Nut-Free"]) (start second_call_fails ∅))))
    = [(Groq, PyStr "vegan"); (Groq, PyStr "no nuts"); (OpenAI, PyStr two_subtexts)].
Proof. split; reflexivity. Qed.

(** ** The unique values behind the categories *)

Lemma nonempty_true (v : string) : Str.nonempty v = true ↔ v ≠ "".
Proof. by destruct v. Qed.

Lemma unique_of_rows_spec (column_name : string) (rows : list row)
    (u0 u : gset string) :
  unique_of_rows column_name rows u0 = Ok u →
  ∀ v, v ∈ u ↔
       v ∈ u0
       ∨ ∃ r, r ∈ rows ∧ is_approved r = Ok true
              ∧ Py.strip (row_get r column_name) = Ok v ∧ v ≠ "".
Proof.
  revert u0. induction rows as [|r rows IH]; intros u0; simpl.
  - intros [= <-] v. split; [by left |]. intros [? | (r & Hr & _)]; [done |].
    by apply elem_of_nil in Hr.
  - unfold mbind, result_mbind, result_bind.
    destruct (is_approved r) as [[]|e] eqn:Happroved; [| |done].
    + destruct (Py.strip (row_get r column_name)) as [text|e] eqn:Htext; [|done].
      destruct (Str.nonempty text) eqn:Hne; intros Hu v;
        rewrite (IH _ Hu v).
      * rewrite elem_of_union, elem_of_singleton. split.
        -- intros [[-> | Hv] | (r' & Hr' & Hrest)].
           ++ right. exists r. rewrite elem_of_cons.
              apply nonempty_true in Hne. by eauto.
           ++ by left.
           ++ right. exists r'. rewrite elem_of_cons. by eauto.
        -- intros [Hv | (r' & Hr' & Ha & Ht & Hv)]; [by eauto |].
           apply elem_of_cons in Hr' as [-> | Hr']; [| by eauto 10].
           left. left. congruence.
      * split.
        -- intros [Hv | (r' & Hr' & Hrest)]; [by left |].
           right. exists r'. rewrite elem_of_cons. by eauto.
        -- intros [Hv | (r' & Hr' & Ha & Ht & Hv)]; [by left |].
           apply elem_of_cons in Hr' as [-> | Hr']; [| by eauto 10].
           rewrite Htext in Ht. injection Ht as ->.
           apply nonempty_true in Hv. congruence.
    + intros Hu v. rewrite (IH _ Hu v). split.
      * intros [Hv | (r' & Hr' & Hrest)]; [by left |].
        right. exists r'. rewrite elem_of_cons. by eauto.
      * intros [Hv | (r' & Hr' & Ha & Hrest)]; [by left |].
        apply elem_of_cons in Hr' as [-> | Hr']; [congruence | by eauto 10].
Qed.

Lemma unique_of_files_spec (column_name : string) (files : folder)
    (u0 u : gset string) :
  unique_of_files column_name files u0 = Ok u →
  ∀ v, v ∈ u ↔
       v ∈ u0
       ∨ ∃ filename rows r,
           (filename, rows) ∈ files ∧ r ∈ rows ∧ is_approved r = Ok true
           ∧ Py.strip (row_get r column_name) = Ok v ∧ v ≠ "".
Proof.
  revert u0. induction files as [|[filename rows] files IH]; intros u0; simpl.
  - intros [= <-] v. split; [by left |].
    intros [? | (f & rows & r & Hin & _)]; [done |]. by apply elem_of_nil in Hin.
  - unfold mbind, result_mbind, result_bind.
    destruct (unique_of_rows column_name rows u0) as [u1|e] eqn:Hrows; [|done].
    intros Hu v. rewrite (IH _ Hu v), (unique_of_rows_spec _ _ _ _ Hrows v).
    split.
    + intros [[Hv | (r & Hr & Hrest)] | (f & rows' & r & Hin & Hrest)].
      * by left.
      * right. exists filename, rows, r. rewrite elem_of_cons. by eauto.
      * right. exists f, rows', r. rewrite elem_of_cons. by eauto.
    + intros [Hv | (f & rows' & r & Hin & Hr & Hrest)]; [by eauto |].
      apply elem_of_cons in Hin as [[= -> ->] | Hin].
      * left. right. by eauto.
      * right. by eauto 10.
Qed.

(** C10.  The unique values that [get_unique_categories] gathers are exactly
    the trimmed, non-empty values of the target column in the approved rows
    of the CSV files of the folder.  So the empty string is never one of
    them; and an approved row without the column, whose value reads as the
    empty string, leaves the set as it was. *)
Theorem unique_values_are_nonempty_approved_texts
    (data_folder : folder) (column_name : string) (unique_values : gset string) :
  unique_values_of data_folder column_name = Ok unique_values →
  ("" ∉ unique_values)
  ∧ (∀ v, v ∈ unique_values ↔
          ∃ filename rows r,
            (filename, rows) ∈ data_folder ∧ Str.endswith ".csv" filename = true
            ∧ r ∈ rows ∧ is_approved r = Ok true
            ∧ Py.strip (row_get r column_name) = Ok v ∧ v ≠ "")
  ∧ (∀ (r : row) (rows : list row) (u0 : gset string),
       is_approved r = Ok true → r !! column_name = None →
       Py.strip (row_get r column_name) = Ok ""
       ∧ unique_of_rows column_name (r :: rows) u0
         = unique_of_rows column_name rows u0).
Proof.
  intros Hu. unfold unique_values_of in Hu.
  pose proof (unique_of_files_spec _ _ _ _ Hu) as Hspec.
  assert (Hchar : ∀ v, v ∈ unique_values ↔
            ∃ filename rows r,
              (filename, rows) ∈ data_folder ∧ Str.endswith ".csv" filename = true
              ∧ r ∈ rows ∧ is_approved r = Ok true
              ∧ Py.strip (row_get r column_name) = Ok v ∧ v ≠ "").
  { intros v. rewrite Hspec. split.
    - intros [Hv | (f & rows & r & Hin & Hrest)]; [by apply not_elem_of_empty in Hv |].
      unfold csv_files in Hin. apply list_elem_of_filter in Hin as [Hcsv Hin].
      exists f, rows, r. by eauto.
    - intros (f & rows & r & Hin & Hcsv & Hrest). right.
      exists f, rows, r. split; [| done].
      unfold csv_files. apply list_elem_of_filter. by split. }
  split; [| split; [done |]].
  - intros Hin. apply Hchar in Hin as (_ & _ & _ & _ & _ & _ & _ & _ & Hne).
    done.
  - intros r rows u0 Happroved Hnone. split; [by apply absent_column_text |].
    simpl. unfold mbind, result_mbind, result_bind.
    by rewrite Happroved, (absent_column_text _ _ Hnone).
Qed.

Lemma unique_values_are_nonempty_approved_texts_witness :
  ("" ∉ ({["vegan"]} : gset string))
  ∧ (∀ v, v ∈ ({["vegan"]} : gset string) ↔
          ∃ filename rows r,
            (filename, rows)
              ∈ [("a.csv", [approved_row " vegan "; row_without_column;
                            approved_row "  "])]
            ∧ Str.endswith ".csv" filename = true
            ∧ r ∈ rows ∧ is_approved r = Ok true
            ∧ Py.strip (row_get r dietary_column) = Ok v ∧ v ≠ "")
  ∧ (∀ (r : row) (rows : list row) (u0 : gset string),
       is_approved r = Ok true → r !! dietary_column = None →
       Py.strip (row_get r dietary_column) = Ok ""
       ∧ unique_of_rows dietary_column (r :: rows) u0
         = unique_of_rows dietary_column rows u0).
Proof.
  apply (unique_values_are_nonempty_approved_texts
           [("a.csv", [approved_row " vegan "; row_without_column;
                       approved_row "  "])] dietary_column {["vegan"]}).
  reflexivity.
Defined.

(** ** The name of the output file *)

Lemma get_unique_filename_from_spec (base_name extension : string)
    (existing : gset string) (counter : nat) :
  ∃ n, counter ≤ n
       ∧ get_unique_filename_from base_name extension existing counter
         = candidate base_name extension n
       ∧ (candidate base_name extension n ∉ existing)
       ∧ ∀ m, counter ≤ m < n → candidate base_name extension m ∈ existing.
Proof.
  funelim (get_unique_filename_from base_name extension existing counter).
  - clear H0 Heqcall. apply bool_decide_eq_true_1 in Hexists.
    destruct H as (n & Hle & Heq & Hfree & Hbelow).
    exists n. split; [lia |]. split; [done |]. split; [done |].
    intros m Hm. destruct (decide (m = counter)) as [-> | Hne]; [done |].
    apply Hbelow. lia.
  - match goal with
    | Hfree : bool_decide _ = false |- _ =>
        pose proof (bool_decide_eq_false_1 _ Hfree)
    end.
    exists counter. split; [done |]. split; [done |]. split; [done |].
    intros m Hm. lia.
Qed.

(** The run does not touch the disk before it writes its output. *)
Section Disk.

Context `{RT : Runtime}.

Lemma written_all (lines : list (list value)) :
  forallb row_encodable lines = true → written lines = lines.
Proof.
  induction lines as [|line lines IH]; simpl; [done |].
  intros [-> Hrest]%andb_prop. by rewrite IH.
Qed.

Lemma header_encodable : row_encodable header = true.
Proof.
  unfold row_encodable, header. simpl.
  by rewrite !encodable_ascii.
Qed.

Lemma written_header (rows : list (list value)) :
  written (header :: rows) = header :: written rows.
Proof.
  change (written (header :: rows))
    with (if row_encodable header then header :: written rows else []).
  by rewrite header_encodable.
Qed.

Lemma forallb_header (rows : list (list value)) :
  forallb row_encodable (header :: rows) = forallb row_encodable rows.
Proof.
  change (forallb row_encodable (header :: rows))
    with (row_encodable header && forallb row_encodable rows).
  by rewrite header_encodable.
Qed.


(** A write that returns has written every row. *)
Lemma write_csv_ok (path : string) (lines : list (list value)) (s s' : state) :
  write_csv path lines s = (Ok (), s') →
  forallb row_encodable lines = true
  ∧ s' = State (world s) (trace s ++ [WriteCsv path lines]) ({[path]} ∪ disk s).
Proof.
  unfold write_csv. destruct (forallb row_encodable lines) eqn:Henc; [| done].
  intros [= <-]. by rewrite (written_all _ Henc).
Qed.

Lemma classify_text_disk (text : string) (categories : value) (s s' : state)
    (r : result value) :
  classify_text text categories s = (r, s') → disk s' = disk s.
Proof.
  destruct (Str.nonempty text) eqn:Hne.
  - rewrite classify_text_cases by done.
    destruct (classify_primary text categories s) as [[c|e] s1] eqn:Hprimary;
      apply classify_primary_events in Hprimary as [Hdisk1 _].
    + by intros [= <- <-].
    + destruct (classify_dietary_restrictions (PyStr text) categories true s1)
        as [[c|e'] s2] eqn:Hfallback;
        apply classify_events in Hfallback as [Hdisk2 _];
        intros [= <- <-]; congruence.
  - unfold classify_text. rewrite Hne. unfold_M. by intros [= <- <-].
Qed.

Lemma process_row_disk (filename column_name : string) (categories : value)
    (r : row) (t : table) (s s' : state) (res : result table) :
  process_row filename column_name categories r t s = (res, s') →
  disk s' = disk s.
Proof.
  unfold process_row. unfold_M.
  destruct (is_approved r) as [[]|e]; try by intros [= <- <-].
  destruct (Py.strip (row_get r column_name)) as [text|e];
    [| by intros [= <- <-]].
  destruct (classify_text text categories s) as [[c|e] s1] eqn:Hc;
    apply classify_text_disk in Hc.
  - destruct (Py.iter c); by intros [= <- <-].
  - by intros [= <- <-].
Qed.

Lemma process_rows_disk (test_run : bool) (filename column_name : string)
    (categories : value) (i : nat) (rows : list row) (t : table)
    (s s' : state) (res : result table) :
  process_rows test_run filename column_name categories i rows t s = (res, s') →
  disk s' = disk s.
Proof.
  revert i t s. induction rows as [|r rows IH]; intros i t s.
  - simpl. unfold_M. by intros [= <- <-].
  - rewrite process_rows_cons.
    destruct (test_run && (10 <=? i)); [unfold_M; by intros [= <- <-] |].
    unfold_M.
    destruct (process_row filename column_name categories r t s)
      as [[t1|e] s1] eqn:Hrow; apply process_row_disk in Hrow.
    + intros H. apply IH in H. congruence.
    + by intros [= <- <-].
Qed.

Lemma process_files_disk (test_run : bool) (column_name : string)
    (categories : value) (files : folder) (t : table)
    (s s' : state) (res : result table) :
  process_files test_run column_name categories files t s = (res, s') →
  disk s' = disk s.
Proof.
  revert t s. induction files as [|[filename rows] files IH]; intros t s; simpl.
  - unfold_M. by intros [= <- <-].
  - unfold_M.
    destruct (process_rows test_run filename column_name categories 0 rows t s)
      as [[t1|e] s1] eqn:Hrows; apply process_rows_disk in Hrows.
    + intros H. apply IH in H. congruence.
    + by intros [= <- <-].
Qed.

Lemma get_unique_categories_disk (data_folder : folder) (column_name : string)
    (s s' : state) (r : result value) :
  get_unique_categories data_folder column_name s = (r, s') → disk s' = disk s.
Proof.
  unfold get_unique_categories. unfold_M.
  destruct (unique_values_of data_folder column_name); [| by intros [= <- <-]].
  destruct (new_client Groq (world s)) as [[[]|e] w1]; simpl;
    [| by intros [= <- <-]].
  destruct (chat_create _ _ w1) as [[content|e] w2]; simpl;
    [| by intros [= <- <-]].
  destruct (json_loads content); by intros [= <- <-].
Qed.

(** C7.  [get_unique_filename] returns [base_name(n)extension] for the
    smallest [n >= 1] whose path does not exist, so it never names an
    existing file.  A run that ends normally has written its output, as its
    last action, to the path so chosen for the extension [.csv], a path that
    did not exist when the run began.  With [classification_results.csv] and
    [classification_results(1).csv] present, the path is
    [classification_results(2).csv]. *)
Theorem output_file_is_first_free_name
    (base_name extension : string) (existing : gset string) :
  (∃ n, 1 ≤ n
        ∧ get_unique_filename base_name extension existing
          = candidate base_name extension n
        ∧ (candidate base_name extension n ∉ existing)
        ∧ ∀ m, 1 ≤ m < n → candidate base_name extension m ∈ existing)
  ∧ (∀ (data_folder : folder) (column_name : string) (test_run : bool)
       (s s' : state),
       process_csv_files data_folder column_name base_name test_run s
       = (Ok (), s') →
       ∃ events lines,
         trace s'
         = events ++ [WriteCsv (get_unique_filename base_name ".csv" (disk s)) lines]
         ∧ (get_unique_filename base_name ".csv" (disk s) ∉ disk s)
         ∧ disk s' = {[get_unique_filename base_name ".csv" (disk s)]} ∪ disk s)
  ∧ get_unique_filename "classification_results" ".csv"
      {["classification_results.csv"; "classification_results(1).csv"]}
    = "classification_results(2).csv".
Proof.
  split; [apply get_unique_filename_from_spec |]. split; [| reflexivity].
  intros data_folder column_name test_run s s'.
  unfold process_csv_files, write_results, exists_on_disk. unfold_M.
  destruct (get_unique_categories data_folder column_name s)
    as [[categories|e] s1] eqn:Hcat; [| done].
  apply get_unique_categories_disk in Hcat.
  destruct (process_files test_run column_name categories
              (csv_files data_folder) [] s1) as [[t|e] s2] eqn:Hfiles; [| done].
  apply process_files_disk in Hfiles.
  destruct (classification_counts t) as [counts|e]; [| done].
  intros [_ ->]%write_csv_ok. simpl. rewrite Hfiles, Hcat.
  exists (trace s2), (header :: data_rows counts).
  split; [done |]. split; [| done].
  destruct (get_unique_filename_from_spec base_name ".csv" (disk s) 1)
    as (n & _ & Heq & Hfree & _).
  unfold get_unique_filename. by rewrite Heq.
Qed.

End Disk.

Lemma output_file_is_first_free_name_witness :
  ∃ events lines,
    trace (snd (@process_csv_files scripted [("a.csv", [approved_row ""])]
                  dietary_column "classification_results" false
                  (start [Ok (answer "categories" ["No restrictions"])]
                     {["classification_results.csv";
                       "classification_results(1).csv"]})))
    = events ++ [WriteCsv "classification_results(2).csv" lines]
    ∧ ("classification_results(2).csv"
         ∉ ({["classification_results.csv"; "classification_results(1).csv"]}
              : gset string))
    ∧ disk (snd (@process_csv_files scripted [("a.csv", [approved_row ""])]
                  dietary_column "classification_results" false
                  (start [Ok (answer "categories" ["No restrictions"])]
                     {["classification_results.csv";
                       "classification_results(1).csv"]})))
      = {["classification_results(2).csv"]}
        ∪ {["classification_results.csv"; "classification_results(1).csv"]}.
Proof.
  exact (proj1 (proj2 (@output_file_is_first_free_name scripted
                         "classification_results" ".csv" ∅))
           [("a.csv", [approved_row ""])] dietary_column false
           (start [Ok (answer "categories" ["No restrictions"])]
              {["classification_results.csv"; "classification_results(1).csv"]})
           _ eq_refl).
Defined.

(** ** The test run *)

Section TestRun.

Context `{RT : Runtime}.

Lemma process_rows_nil (test_run : bool) (filename column_name : string)
    (categories : value) (i : nat) (t : table) (s : state) :
  process_rows test_run filename column_name categories i [] t s = (Ok t, s).
Proof. reflexivity. Qed.

Lemma process_rows_test_run (filename column_name : string) (categories : value)
    (rows : list row) (i : nat) (t : table) (s : state) :
  i ≤ 10 →
  process_rows true filename column_name categories i rows t s
  = process_rows false filename column_name categories i (take (10 - i) rows) t s.
Proof.
  revert i t s. induction rows as [|r rows IH]; intros i t s Hi.
  - by rewrite take_nil, !process_rows_nil.
  - rewrite process_rows_cons.
    destruct (10 <=? i) eqn:Hten; cbn [andb].
    + apply Nat.leb_le in Hten. replace (10 - i) with 0 by lia. reflexivity.
    + apply Nat.leb_gt in Hten.
      replace (10 - i) with (S (10 - S i)) by lia.
      rewrite firstn_cons, process_rows_cons. cbn [andb]. unfold_M.
      destruct (process_row filename column_name categories r t s)
        as [[t1|e] s1]; [| done].
      apply IH. lia.
Qed.

Lemma process_files_test_run (column_name : string) (categories : value)
    (files : folder) (t : table) (s : state) :
  process_files true column_name categories files t s
  = process_files false column_name categories (first_ten files) t s.
Proof.
  revert t s. induction files as [|[filename rows] files IH]; intros t s;
    [done |].
  simpl. unfold_M. rewrite process_rows_test_run by lia. simpl.
  destruct (process_rows false filename column_name categories 0 (take 10 rows) t s)
    as [[t1|e] s1]; [apply IH | done].
Qed.

(** C8, amended.  A test run classifies and counts, in every file, the
    records of index 0 to 9 and no other: it is the full run in which the
    classification loop is given the first ten records of each file.  The
    category derivation is not capped: [get_unique_categories] has no
    test-run argument and reads every record of every file. *)
Theorem test_run_caps_classification_only
    (data_folder : folder) (column_name output_file_base : string) (s : state) :
  process_csv_files data_folder column_name output_file_base true s
  = (categories ← get_unique_categories data_folder column_name;
     classifications ←
       process_files false column_name categories
         (first_ten (csv_files data_folder)) [];
     write_results output_file_base classifications) s
  ∧ ∀ (categories : value) (files : folder) (t : table) (s0 : state),
      process_files true column_name categories files t s0
      = process_files false column_name categories (first_ten files) t s0.
Proof.
  split; [| intros; apply process_files_test_run].
  unfold process_csv_files. unfold_M.
  destruct (get_unique_categories data_folder column_name s)
    as [[categories|e] s1]; [| done].
  by rewrite process_files_test_run.
Qed.

End TestRun.

(** C8 as stated fails: in a test run the record of index 10 still
    contributes, to the prompt from which the categories are derived.  The
    two folders agree on the records of index 0 to 9, and the test runs on
    them ask the provider for categories with different prompts.  With a
    provider that looks at its prompts, the counts written for the ten
    records differ as well. *)
Lemma test_run_reads_later_rows_for_categories :
  first_ten eleven_row_folder = first_ten ten_row_folder
  ∧ head (completions (trace (snd
      (@process_csv_files scripted eleven_row_folder dietary_column
         "classification_results" true (start test_run_answers ∅)))))
    = Some (Groq, PyStr (categories_prompt ["kosher"; "vegan"]))
  ∧ head (completions (trace (snd
      (@process_csv_files scripted ten_row_folder dietary_column
         "classification_results" true (start test_run_answers ∅)))))
    = Some (Groq, PyStr (categories_prompt ["vegan"]))
  ∧ categories_prompt ["kosher"; "vegan"] ≠ categories_prompt ["vegan"]
  ∧ last (trace (snd
      (@process_csv_files reactive eleven_row_folder dietary_column
         "classification_results" true (@State reactive () [] ∅))))
    = Some (WriteCsv "classification_results(1).csv"
              [header; [PyStr "a.csv"; PyStr "Kosher"; PyInt 10]])
  ∧ last (trace (snd
      (@process_csv_files reactive ten_row_folder dietary_column
         "classification_results" true (@State reactive () [] ∅))))
    = Some (WriteCsv "classification_results(1).csv"
              [header; [PyStr "a.csv"; PyStr "Vegan"; PyInt 10]]).
Proof.
  split; [reflexivity |]. split; [reflexivity |]. split; [reflexivity |].
  split; [intros H; vm_compute in H; discriminate H |].
  split; reflexivity.
Qed.

(** ** Counting *)

Lemma occurrences_app (name : string) (l1 l2 : list value) :
  occurrences name (l1 ++ l2) = occurrences name l1 + occurrences name l2.
Proof. induction l1 as [|v l1 IH]; simpl; [done | rewrite IH; lia]. Qed.

Lemma is_name_true (name : string) (v : value) :
  is_name name v = true ↔ v = PyStr name.
Proof.
  destruct v; simpl; try (split; [done | by intros [=]]).
  rewrite String.eqb_eq. split; [by intros -> | by intros [= ->]].
Qed.

Lemma key_eqb_name_r (k : value) (name : string) :
  Py.key_eqb k (PyStr name) = is_name name k.
Proof. by destruct k. Qed.

Lemma key_eqb_name_l (name : string) (v : value) :
  Py.key_eqb (PyStr name) v = is_name name v.
Proof. destruct v; simpl; try done. apply String.eqb_sym. Qed.

Lemma counter_get_incr (name : string) (elem : value) (c : list (value * nat)) :
  counter_get (PyStr name) (counter_incr elem c)
  = counter_get (PyStr name) c + (if is_name name elem then 1 else 0).
Proof.
  induction c as [|[k n] c IH]; simpl.
  - rewrite key_eqb_name_r. by destruct (is_name name elem).
  - destruct (Py.key_eqb k elem) eqn:Hke; simpl; rewrite !key_eqb_name_r.
    + destruct (is_name name k) eqn:Hk.
      * apply is_name_true in Hk as ->. rewrite key_eqb_name_l in Hke.
        rewrite Hke. lia.
      * destruct (is_name name elem) eqn:He; [| lia].
        apply is_name_true in He as ->. rewrite key_eqb_name_r in Hke.
        congruence.
    + destruct (is_name name k) eqn:Hk; [| apply IH].
      destruct (is_name name elem) eqn:He; [| lia].
      apply is_name_true in He as ->. rewrite key_eqb_name_r in Hke.
      congruence.
Qed.

Lemma counter_update_get (name : string) (cats : list value)
    (c c' : list (value * nat)) :
  counter_update cats c = Ok c' →
  counter_get (PyStr name) c' = counter_get (PyStr name) c + occurrences name cats.
Proof.
  revert c. induction cats as [|elem cats IH]; intros c; simpl.
  - intros [= <-]. lia.
  - destruct (Py.hashable elem); [| done].
    intros H. rewrite (IH _ H), counter_get_incr. lia.
Qed.

Lemma counter_incr_wf (elem : value) (c : list (value * nat)) :
  counter_wf c → counter_wf (counter_incr elem c).
Proof.
  induction c as [|[k n] c IH]; simpl.
  - intros _. split; [lia |]. by split.
  - intros (Hn & Hk & Hwf). destruct (Py.key_eqb k elem) eqn:Hke; simpl.
    + split; [lia |]. by split.
    + split; [done |]. split; [| by apply IH].
      intros name Hname. rewrite counter_get_incr, (Hk _ Hname).
      apply is_name_true in Hname as ->. rewrite key_eqb_name_l in Hke.
      by rewrite Hke.
Qed.

Lemma counter_update_wf (cats : list value) (c c' : list (value * nat)) :
  counter_update cats c = Ok c' → counter_wf c → counter_wf c'.
Proof.
  revert c. induction cats as [|elem cats IH]; intros c; simpl.
  - by intros [= <-].
  - destruct (Py.hashable elem); [| done].
    intros H Hwf. apply (IH _ H). by apply counter_incr_wf.
Qed.

Lemma counter_wf_elem (name : string) (n : nat) (c : list (value * nat)) :
  counter_wf c →
  (PyStr name, n) ∈ c ↔ counter_get (PyStr name) c = n ∧ 0 < n.
Proof.
  induction c as [|[k m] c IH]; simpl.
  - intros _. split; [by intros ?%elem_of_nil | lia].
  - intros (Hm & Hk & Hwf). rewrite elem_of_cons, key_eqb_name_r.
    destruct (is_name name k) eqn:Hname.
    + pose proof (Hk _ Hname) as Hzero. apply is_name_true in Hname as ->.
      split.
      * intros [[= ->] | Hin]; [done |].
        apply (IH Hwf) in Hin. lia.
      * intros [-> _]. by left.
    + rewrite <- (IH Hwf). split; [| by right].
      intros [[= <- _] | Hin]; [| done].
      simpl in Hname. by rewrite string_eqb_refl in Hname.
Qed.

(** [Counter(cats)] holds, for every category name, the number of its
    occurrences in [cats], and holds no name with count 0. *)
Lemma Counter_spec (cats : list value) (c : list (value * nat)) :
  Counter cats = Ok c →
  ∀ name n, (PyStr name, n) ∈ c ↔ n = occurrences name cats ∧ 0 < n.
Proof.
  intros Hc name n. unfold Counter in Hc.
  rewrite (counter_wf_elem name n c)
    by (by apply (counter_update_wf _ _ _ Hc)).
  rewrite (counter_update_get name _ _ _ Hc). simpl. split; intros [? ?]; by split.
Qed.

(** The keys of the table stay distinct. *)
Lemma dd_append_keys (filename : string) (cat : value) (t : table) :
  (dd_append filename cat t).*1 = t.*1
  ∨ (filename ∉ t.*1) ∧ (dd_append filename cat t).*1 = t.*1 ++ [filename].
Proof.
  induction t as [|[f cats] t IH]; csimpl.
  - right. split; [apply not_elem_of_nil | done].
  - destruct (String.eqb f filename) eqn:Hf; csimpl; [by left |].
    destruct IH as [-> | [Hnotin ->]]; [by left |].
    right. split; [| done]. rewrite not_elem_of_cons. split; [| done].
    intros ->. by rewrite string_eqb_refl in Hf.
Qed.

Lemma dd_append_NoDup (filename : string) (cat : value) (t : table) :
  NoDup t.*1 → NoDup (dd_append filename cat t).*1.
Proof.
  intros Hnd. destruct (dd_append_keys filename cat t) as [-> | [Hnotin ->]];
    [done |].
  apply NoDup_app. split; [done |]. split; [| apply NoDup_singleton].
  intros x Hx Hx'. apply list_elem_of_singleton in Hx' as ->. done.
Qed.

Lemma append_all_NoDup (filename : string) (cats : list value) (t : table) :
  NoDup t.*1 → NoDup (append_all filename cats t).*1.
Proof.
  revert t. induction cats as [|cat cats IH]; intros t Hnd; csimpl; [done |].
  apply IH. by apply dd_append_NoDup.
Qed.

Lemma entries_elem (filename : string) (cats : list value) (t : table) :
  NoDup t.*1 → (filename, cats) ∈ t → entries filename t = cats.
Proof.
  induction t as [|[f cats'] t IH]; csimpl.
  - by intros _ ?%elem_of_nil.
  - intros [Hnotin Hnd]%NoDup_cons [[= <- <-] | Hin]%elem_of_cons.
    + by rewrite string_eqb_refl.
    + destruct (String.eqb f filename) eqn:Hf; [| by apply IH].
      apply String.eqb_eq in Hf as ->. destruct Hnotin.
      apply list_elem_of_fmap. by exists (filename, cats).
Qed.

Lemma entries_nonempty (filename : string) (t : table) :
  entries filename t ≠ [] → (filename, entries filename t) ∈ t.
Proof.
  induction t as [|[f cats] t IH]; csimpl; [done |].
  destruct (String.eqb f filename) eqn:Hf.
  - apply String.eqb_eq in Hf as ->. intros _. apply elem_of_cons. by left.
  - intros Hne. apply elem_of_cons. right. by apply IH.
Qed.

Lemma classification_counts_spec (t : table)
    (counts : list (string * list (value * nat))) :
  classification_counts t = Ok counts →
  ∀ filename c,
    (filename, c) ∈ counts ↔ ∃ cats, (filename, cats) ∈ t ∧ Counter cats = Ok c.
Proof.
  revert counts. induction t as [|[f cats] t IH]; intros counts; simpl.
  - intros [= <-] filename c. split; [by intros ?%elem_of_nil |].
    by intros (? & ?%elem_of_nil & _).
  - unfold mbind, result_mbind, result_bind.
    destruct (Counter cats) as [c0|e] eqn:Hc0; [| done].
    destruct (classification_counts t) as [r|e]; [| done].
    intros [= <-] filename c. rewrite elem_of_cons, (IH r eq_refl). split.
    + intros [[= -> ->] | (cats' & Hin & Hc)].
      * exists cats. split; [apply elem_of_cons; by left | done].
      * exists cats'. split; [apply elem_of_cons; by right | done].
    + intros (cats' & [[= -> ->] | Hin]%elem_of_cons & Hc).
      * left. congruence.
      * right. by eauto.
Qed.

(** When the counts of a table exist, every list of the table was counted. *)
Lemma classification_counts_total (t : table)
    (counts : list (string * list (value * nat)))
    (filename : string) (cats : list value) :
  classification_counts t = Ok counts →
  (filename, cats) ∈ t → ∃ c, Counter cats = Ok c.
Proof.
  revert counts. induction t as [|[f cats'] t IH]; intros counts; simpl.
  - by intros _ ?%elem_of_nil.
  - unfold mbind, result_mbind, result_bind.
    destruct (Counter cats') as [c0|e] eqn:Hc0; [| done].
    destruct (classification_counts t) as [r|e]; [| done].
    intros _ [[= -> ->] | Hin]%elem_of_cons; [by eauto |].
    by apply (IH r).
Qed.

Lemma elem_of_data_rows (line : list value)
    (counts : list (string * list (value * nat))) :
  line ∈ data_rows counts ↔
  ∃ filename c category count,
    (filename, c) ∈ counts ∧ (category, count) ∈ c
    ∧ line = [PyStr filename; category; PyInt (Z.of_nat count)].
Proof.
  unfold data_rows. rewrite list_elem_of_bind. split.
  - intros ([filename c] & Hline & Hin). apply list_elem_of_bind in Hline
      as ([category count] & Hline & Hin'). apply list_elem_of_singleton in Hline.
    by eauto 10.
  - intros (filename & c & category & count & Hin & Hin' & ->).
    exists (filename, c). split; [| done]. apply list_elem_of_bind.
    exists (category, count). split; [| done]. by apply list_elem_of_singleton.
Qed.

(** The data rows written for a table with distinct keys: a row for a file
    and a category name holds the number of occurrences of the name among
    the entries of the file, and there is such a row exactly when that
    number is not 0. *)
Lemma data_rows_spec (t : table) (counts : list (string * list (value * nat))) :
  NoDup t.*1 →
  classification_counts t = Ok counts →
  ∀ filename name n,
    [PyStr filename; PyStr name; PyInt (Z.of_nat n)] ∈ data_rows counts
    ↔ n = occurrences name (entries filename t) ∧ 0 < n.
Proof.
  intros Hnd Hcounts filename name n.
  pose proof (classification_counts_spec _ _ Hcounts) as Hspec.
  rewrite elem_of_data_rows. split.
  - intros (f & c & category & count & Hin & Hin' & [= -> <- Hn]).
    apply Nat2Z.inj in Hn as ->.
    apply Hspec in Hin as (cats & Hin & Hc).
    rewrite (entries_elem _ _ _ Hnd Hin). by apply (Counter_spec _ _ Hc).
  - intros [-> Hpos].
    assert (Hne : entries filename t ≠ []).
    { intros Hnil. rewrite Hnil in Hpos. simpl in Hpos. lia. }
    apply entries_nonempty in Hne.
    destruct (classification_counts_total _ _ _ _ Hcounts Hne) as [c Hc].
    exists filename, c, (PyStr name), (occurrences name (entries filename t)).
    split; [apply Hspec; by eauto |]. split; [| done].
    by apply (Counter_spec _ _ Hc).
Qed.

(** ** Aggregation over a run *)

Section Aggregation.

Context `{RT : Runtime}.

Lemma process_row_categories (filename column_name : string)
    (categories : value) (r : row) (t : table) (s : state) :
  process_row filename column_name categories r t s
  = match row_categories column_name categories r s with
    | (Ok cats, s') => (Ok (append_all filename cats t), s')
    | (Raise e, s') => (Raise e, s')
    end.
Proof.
  unfold process_row, row_categories. unfold_M.
  destruct (is_approved r) as [[]|e]; try done.
  destruct (Py.strip (row_get r column_name)) as [text|e]; [| done].
  destruct (classify_text text categories s) as [[c|e] s1]; [| done].
  by destruct (Py.iter c).
Qed.

Lemma rows_categories_cons (test_run : bool) (column_name : string)
    (categories : value) (i : nat) (r : row) (rows : list row) :
  rows_categories test_run column_name categories i (r :: rows)
  = if test_run && (10 <=? i) then mret []
    else
      cats ← row_categories column_name categories r;
      lists ← rows_categories test_run column_name categories (S i) rows;
      mret (cats :: lists).
Proof. reflexivity. Qed.

Lemma process_rows_categories (test_run : bool) (filename column_name : string)
    (categories : value) (i : nat) (rows : list row) (t : table) (s : state) :
  process_rows test_run filename column_name categories i rows t s
  = match rows_categories test_run column_name categories i rows s with
    | (Ok lists, s') => (Ok (append_all filename (concat lists) t), s')
    | (Raise e, s') => (Raise e, s')
    end.
Proof.
  revert i t s. induction rows as [|r rows IH]; intros i t s; [done |].
  rewrite process_rows_cons, rows_categories_cons.
  destruct (test_run && (10 <=? i)); [done |]. unfold_M.
  rewrite process_row_categories.
  destruct (row_categories column_name categories r s) as [[cats|e] s1];
    [| done].
  rewrite IH.
  destruct (rows_categories test_run column_name categories (S i) rows s1)
    as [[lists|e] s2]; [| done].
  simpl. by rewrite append_all_app.
Qed.

Lemma process_files_categories (test_run : bool) (column_name : string)
    (categories : value) (files : folder) (t : table) (s : state) :
  NoDup t.*1 →
  match process_files test_run column_name categories files t s,
        files_categories test_run column_name categories files s with
  | (Ok t', s'), (Ok per_file, s'') =>
      s' = s'' ∧ NoDup t'.*1
      ∧ ∀ filename,
          entries filename t'
          = entries filename t ++ concat (row_lists_of filename per_file)
  | (Raise e, s'), (Raise e', s'') => e = e' ∧ s' = s''
  | _, _ => False
  end.
Proof.
  revert t s. induction files as [|[f rows] files IH]; intros t s Hnd; simpl.
  - unfold_M. split; [done |]. split; [done |]. intros filename.
    by rewrite app_nil_r.
  - unfold_M. rewrite process_rows_categories.
    destruct (rows_categories test_run column_name categories 0 rows s)
      as [[lists|e] s1]; [| done].
    specialize (IH (append_all f (concat lists) t) s1
                  (append_all_NoDup _ _ _ Hnd)).
    destruct (process_files test_run column_name categories files
                (append_all f (concat lists) t) s1) as [[t'|e] s2];
      destruct (files_categories test_run column_name categories files s1)
        as [[per_file|e'] s3]; try done.
    destruct IH as (-> & Hnd' & Hentries). split; [done |]. split; [done |].
    intros filename. rewrite Hentries, entries_append_all. simpl.
    destruct (String.eqb f filename);
      by rewrite ?concat_app, <- ?app_assoc.
Qed.

(** C6.  In a run that ends normally, the data rows written hold, for each
    file and each category name, the number of times the name occurs in the
    classification lists of the rows of that file, all occurrences counted
    (a name twice in one row's list counts twice); a name that does not
    occur has no row. *)
Theorem counts_add_up_per_file
    (data_folder : folder) (column_name output_file_base : string)
    (test_run : bool) (s s' : state) :
  process_csv_files data_folder column_name output_file_base test_run s
  = (Ok (), s') →
  ∃ categories s1 per_file s2 path rows,
    get_unique_categories data_folder column_name s = (Ok categories, s1)
    ∧ files_categories test_run column_name categories (csv_files data_folder) s1
      = (Ok per_file, s2)
    ∧ trace s' = trace s2 ++ [WriteCsv path (header :: rows)]
    ∧ ∀ filename name n,
        [PyStr filename; PyStr name; PyInt (Z.of_nat n)] ∈ rows
        ↔ n = occurrences name (concat (row_lists_of filename per_file))
          ∧ 0 < n.
Proof.
  unfold process_csv_files, write_results, exists_on_disk. unfold_M.
  destruct (get_unique_categories data_folder column_name s)
    as [[categories|e] s1]; [| done].
  pose proof (process_files_categories test_run column_name categories
                (csv_files data_folder) [] s1 (NoDup_nil_2 : NoDup ([] : table).*1))
    as Hfiles.
  destruct (process_files test_run column_name categories
              (csv_files data_folder) [] s1) as [[t|e] s2]; [| done].
  destruct (files_categories test_run column_name categories
              (csv_files data_folder) s1) as [[per_file|e] s3] eqn:Hlists;
    [| done].
  destruct Hfiles as (<- & Hnd & Hentries).
  destruct (classification_counts t) as [counts|e] eqn:Hcounts; [| done].
  intros [_ ->]%write_csv_ok. simpl.
  exists categories, s1, per_file, s2,
    (get_unique_filename output_file_base ".csv" (disk s2)), (data_rows counts).
  split; [done |]. split; [done |]. split; [done |].
  intros filename name n.
  rewrite (data_rows_spec _ _ Hnd Hcounts filename name n), Hentries. done.
Qed.

End Aggregation.

Lemma counts_add_up_per_file_witness :
  (∃ categories s1 per_file s2 path rows,
     @get_unique_categories scripted three_row_folder dietary_column
       (start three_row_answers ∅)
     = (Ok categories, s1)
     ∧ @files_categories scripted false dietary_column categories
         (csv_files three_row_folder) s1
       = (Ok per_file, s2)
     ∧ trace (snd three_row_run) = trace s2 ++ [WriteCsv path (header :: rows)]
     ∧ ∀ filename name n,
         [PyStr filename; PyStr name; PyInt (Z.of_nat n)] ∈ rows
         ↔ n = occurrences name (concat (row_lists_of filename per_file))
           ∧ 0 < n)
  ∧ last (trace (snd three_row_run))
    = Some (WriteCsv "classification_results(1).csv"
              [header;
               [PyStr "a.csv"; PyStr "Vegan"; PyInt 2];
               [PyStr "a.csv"; PyStr "Gluten-Free"; PyInt 1];
               [PyStr "a.csv"; PyStr "No restrictions"; PyInt 1]]).
Proof.
  split; [| reflexivity].
  apply (@counts_add_up_per_file scripted three_row_folder dietary_column
           "classification_results" false (start three_row_answers ∅)
           (snd three_row_run)).
  reflexivity.
Defined.


(** * Further properties of the script *)

(** ** Rows that are not approved *)

Section Skipped.

Context `{RT : Runtime}.

Lemma not_approved_status (r : row) :
  (r !! "approval_status" = None
   ∨ ∃ v, r !! "approval_status" = Some (PyStr v)
          ∧ Str.lower (Str.strip v) ≠ "approved") →
  is_approved r = Ok false.
Proof.
  unfold is_approved, row_get. intros [-> | (v & -> & Hv)]; [done |].
  simpl. f_equal. by apply String.eqb_neq.
Qed.

(** X1.  A row without the column "approval_status", or whose status is not
    "approved" once trimmed and put in lower case, is skipped by both
    stages: it adds nothing to the unique values, and in the classification
    loop it changes neither the table nor the state (no client, no
    completion, no pause).  It still takes its index: in a test run the loop
    goes on with index [i + 1], so skipped rows use up the ten rows of a
    test run. *)
Theorem unapproved_row_is_skipped
    (test_run : bool) (filename column_name : string) (categories : value)
    (r : row) (rows : list row) (i : nat) (t : table)
    (unique_values : gset string) (s : state) :
  (r !! "approval_status" = None
   ∨ ∃ v, r !! "approval_status" = Some (PyStr v)
          ∧ Str.lower (Str.strip v) ≠ "approved") →
  unique_of_rows column_name (r :: rows) unique_values
  = unique_of_rows column_name rows unique_values
  ∧ process_row filename column_name categories r t s = (Ok t, s)
  ∧ process_rows test_run filename column_name categories i (r :: rows) t s
    = if test_run && (10 <=? i) then (Ok t, s)
      else process_rows test_run filename column_name categories (S i) rows t s.
Proof.
  intros Hstatus. apply not_approved_status in Hstatus.
  assert (Hrow : process_row filename column_name categories r t s = (Ok t, s)).
  { unfold process_row. unfold_M. by rewrite Hstatus. }
  split; [| split; [done |]].
  - simpl. unfold mbind, result_mbind, result_bind. by rewrite Hstatus.
  - rewrite process_rows_cons. destruct (test_run && (10 <=? i)); [done |].
    unfold_M. by rewrite Hrow.
Qed.

End Skipped.

Lemma unapproved_row_is_skipped_witness :
  unique_of_rows dietary_column [status_row "pending" "vegan"] ∅
  = unique_of_rows dietary_column [] ∅
  ∧ @process_row scripted "a.csv" dietary_column one_category
      (status_row "pending" "vegan") [] (start [] ∅)
    = (Ok [], start [] ∅)
  ∧ @process_rows scripted true "a.csv" dietary_column one_category 9
      [status_row "pending" "vegan"] [] (start [] ∅)
    = if true && (10 <=? 9) then (Ok [], start [] ∅)
      else @process_rows scripted true "a.csv" dietary_column one_category 10
             [] [] (start [] ∅).
Proof.
  apply (@unapproved_row_is_skipped scripted true "a.csv" dietary_column
           one_category (status_row "pending" "vegan") [] 9 [] ∅ (start [] ∅)).
  right. exists "pending". split; [reflexivity |].
  intros H. vm_compute in H. discriminate H.
Defined.

(** ** The answer to a classification request *)

Section ClassificationAnswer.

Context `{RT : Runtime}.

(** X2.  Once the client of the chosen provider is created, the categories
    are joined and the completion has returned [content],
    [classify_dietary_restrictions] has made exactly these two events and
    depends on [content] as follows: a JSON object gives the value under
    "dietary_restrictions", and the empty list when the key is missing;
    JSON that is no object raises [AttributeError]; content that
    [json.loads] rejects raises its exception. *)
Theorem classification_from_answer
    (text categories : value) (use_openai : bool) (joined content : string)
    (s : state) (w1 w2 : World) :
  new_client (provider_of use_openai) (world s) = (Ok (), w1) →
  Py.join ", " categories = Ok joined →
  chat_create (provider_of use_openai)
    (classify_request text joined use_openai) w1 = (Ok content, w2) →
  classify_dietary_restrictions text categories use_openai s
  = (match json_loads content with
     | Ok (PyDict d) =>
         Ok (default (PyList []) (Py.assoc "dietary_restrictions" d))
     | Ok _ => Raise AttributeError
     | Raise e => Raise e
     end,
     State w2
       (trace s ++ [NewClient (provider_of use_openai);
                    ChatCreate (provider_of use_openai)
                      (classify_request text joined use_openai)])
       (disk s)).
Proof.
  intros Hclient Hjoin Hcreate.
  unfold classify_dietary_restrictions. unfold_M.
  rewrite Hclient. simpl. rewrite Hjoin. simpl. rewrite Hcreate. simpl.
  rewrite <- app_assoc. simpl.
  destruct (json_loads content) as [v|e]; [| done].
  by destruct v.
Qed.

(** With categories that cannot be joined, a call raises after creating its
    client, or because the client cannot be created, and requests no
    completion. *)
Lemma classify_unjoinable (text categories : value) (use_openai : bool)
    (e : exn) (s : state) :
  Py.join ", " categories = Raise e →
  ∃ e' w,
    classify_dietary_restrictions text categories use_openai s
    = (Raise e',
       State w (trace s ++ [NewClient (provider_of use_openai)]) (disk s)).
Proof.
  intros Hjoin. unfold classify_dietary_restrictions. unfold_M.
  destruct (new_client (provider_of use_openai) (world s)) as [[[]|e0] w1];
    simpl; [rewrite Hjoin |]; by eauto.
Qed.

(** X3.  When the derived categories cannot be joined into the system
    prompt (the value under "categories" is no iterable of strings), no
    completion is requested for any row.  A row with non-empty text is
    classified as exactly [["Error"]], with one exception: a text that
    looks like a JSON array and holds no sub-text is classified as the empty
    list, and that without any event, since the loop over the sub-texts
    makes no call. *)
Theorem unjoinable_categories_give_error
    (text : string) (categories : value) (e : exn) (s : state) :
  Py.join ", " categories = Raise e →
  Str.nonempty text = true →
  ∃ c s' events,
    classify_text text categories s = (Ok c, s')
    ∧ trace s' = trace s ++ events
    ∧ completions events = []
    ∧ (if Str.startswith "[" text && Str.endswith "]" text then
         match json_loads text with
         | Ok v =>
             match Py.iter v with
             | Ok [] => c = PyList [] ∧ events = []
             | _ => c = PyList [PyStr "Error"]
             end
         | Raise _ => c = PyList [PyStr "Error"]
         end
       else c = PyList [PyStr "Error"]).
Proof.
  intros Hjoin Hne. rewrite classify_text_cases by done.
  assert (Hfail : ∀ s1 events1,
            trace s1 = trace s ++ events1 → completions events1 = [] →
            ∃ s' events,
              match classify_dietary_restrictions (PyStr text) categories true s1 with
              | (Ok c0, s2) => (Ok c0, s2)
              | (Raise _, s2) => (Ok (PyList [PyStr "Error"]), s2)
              end = (Ok (PyList [PyStr "Error"]), s')
              ∧ trace s' = trace s ++ events
              ∧ completions events = []).
  { intros s1 events1 Htrace Hnone.
    destruct (classify_unjoinable (PyStr text) categories true e s1 Hjoin)
      as (e' & w & ->).
    eexists _, (events1 ++ [NewClient (provider_of true)]).
    split; [done |]. simpl. split; [by rewrite Htrace, app_assoc |].
    by rewrite completions_app, Hnone. }
  unfold classify_primary.
  destruct (Str.startswith "[" text && Str.endswith "]" text) eqn:Harray.
  - unfold_M. destruct (json_loads text) as [v|e0] eqn:Hloads; simpl.
    2:{ destruct (Hfail s []) as (s' & events & H1 & H2 & H3);
          [by rewrite app_nil_r | done |].
        by exists (PyList [PyStr "Error"]), s', events. }
    destruct (Py.iter v) as [[|item items]|e0] eqn:Hiter; simpl.
    + unfold_M. exists (PyList []), s, []. by rewrite app_nil_r.
    + unfold_M.
      destruct (classify_unjoinable item categories false e s Hjoin)
        as (e' & w & ->).
      edestruct Hfail as (s' & events & H1 & H2 & H3);
        [| | exists (PyList [PyStr "Error"]), s', events; by eauto];
        simpl; done.
    + destruct (Hfail s []) as (s' & events & H1 & H2 & H3);
        [by rewrite app_nil_r | done |].
      by exists (PyList [PyStr "Error"]), s', events.
  - unfold_M.
    destruct (classify_unjoinable (PyStr text) categories false e s Hjoin)
      as (e' & w & ->).
    edestruct Hfail as (s' & events & H1 & H2 & H3);
      [| | exists (PyList [PyStr "Error"]), s', events; by eauto];
      simpl; done.
Qed.

(** X4.  A row whose text starts with "[" and ends with "]" but is rejected
    by [json.loads] is not classified by the primary provider at all: the
    primary attempt raises without an event, and the row's classification
    is that of the one fallback call on the whole text, or [["Error"]]. *)
Theorem malformed_array_text_goes_to_fallback
    (text : string) (categories : value) (e : exn) (s : state) :
  Str.startswith "[" text = true →
  Str.endswith "]" text = true →
  json_loads text = Raise e →
  classify_primary text categories s = (Raise e, s)
  ∧ ∃ outcome s' events,
      classify_dietary_restrictions (PyStr text) categories true s = (outcome, s')
      ∧ classify_text text categories s
        = (Ok (match outcome with
               | Ok c => c
               | Raise _ => PyList [PyStr "Error"]
               end), s')
      ∧ trace s' = trace s ++ events
      ∧ attempts events = [OpenAI].
Proof.
  intros Hstart Hend Hloads.
  assert (Hprimary : classify_primary text categories s = (Raise e, s)).
  { unfold classify_primary. rewrite Hstart, Hend. simpl. unfold_M.
    by rewrite Hloads. }
  split; [done |].
  destruct (classify_dietary_restrictions (PyStr text) categories true s)
    as [outcome s'] eqn:Hfallback.
  pose proof Hfallback as Hf.
  apply classify_events in Hf as (_ & events & Htrace & Hattempts & _).
  exists outcome, s', events. split; [done |]. split; [| done].
  rewrite classify_text_cases, Hprimary, Hfallback
    by (by apply (startswith_nonempty "[")).
  by destruct outcome.
Qed.


End ClassificationAnswer.

Lemma classification_from_answer_witness :
  @classify_dietary_restrictions scripted (PyStr "vegan") one_category false
    (start [Ok "{}"] ∅)
  = (match Json.loads "{}" with
     | Ok (PyDict d) =>
         Ok (default (PyList []) (Py.assoc "dietary_restrictions" d))
     | Ok _ => Raise AttributeError
     | Raise e => Raise e
     end,
     @State scripted []
       (trace (start [Ok "{}"] ∅)
        ++ [NewClient (provider_of false);
            ChatCreate (provider_of false)
              (classify_request (PyStr "vegan") "Vegan" false)])
       (disk (start [Ok "{}"] ∅))).
Proof.
  apply (@classification_from_answer scripted (PyStr "vegan") one_category
           false "Vegan" "{}" (start [Ok "{}"] ∅) [Ok "{}"] []).
  - reflexivity.
  - reflexivity.
  - reflexivity.
Defined.

Lemma unjoinable_categories_give_error_witness :
  (∃ c s' events,
     @classify_text scripted "vegan" PyNone (start [] ∅) = (Ok c, s')
     ∧ trace s' = trace (start [] ∅) ++ events
     ∧ completions events = []
     ∧ c = PyList [PyStr "Error"])
  ∧ (∃ c s' events,
       @classify_text scripted "[]" PyNone (start [] ∅) = (Ok c, s')
       ∧ trace s' = trace (start [] ∅) ++ events
       ∧ completions events = []
       ∧ c = PyList [] ∧ events = []).
Proof.
  split.
  - apply (@unjoinable_categories_give_error scripted "vegan" PyNone TypeError
             (start [] ∅)).
    + reflexivity.
    + reflexivity.
  - apply (@unjoinable_categories_give_error scripted "[]" PyNone TypeError
             (start [] ∅)).
    + reflexivity.
    + reflexivity.
Defined.

Lemma malformed_array_text_goes_to_fallback_witness :
  @classify_primary scripted "[vegan]" one_category
    (start [Ok (answer "dietary_restrictions" ["Vegan"])] ∅)
  = (Raise JSONDecodeError, start [Ok (answer "dietary_restrictions" ["Vegan"])] ∅)
  ∧ ∃ outcome s' events,
      @classify_dietary_restrictions scripted (PyStr "[vegan]") one_category true
        (start [Ok (answer "dietary_restrictions" ["Vegan"])] ∅)
      = (outcome, s')
      ∧ @classify_text scripted "[vegan]" one_category
          (start [Ok (answer "dietary_restrictions" ["Vegan"])] ∅)
        = (Ok (match outcome with
               | Ok c => c
               | Raise _ => PyList [PyStr "Error"]
               end), s')
      ∧ trace s'
        = trace (start [Ok (answer "dietary_restrictions" ["Vegan"])] ∅) ++ events
      ∧ attempts events = [OpenAI].
Proof.
  apply (@malformed_array_text_goes_to_fallback scripted "[vegan]" one_category
           JSONDecodeError (start [Ok (answer "dietary_restrictions" ["Vegan"])] ∅)).
  - reflexivity.
  - reflexivity.
  - reflexivity.
Defined.


(** ** The events of a run *)


Lemma paced_after_any (prev : option event) (events : list event) :
  paced events → paced_after prev events.
Proof.
  destruct events as [|e events]; [done |]. intros [Hfirst Hrest].
  split; [| done]. intros He. by destruct (Hfirst He).
Qed.

Lemma paced_after_app (prev : option event) (e1 e2 : list event) :
  paced_after prev e1 → paced e2 → paced_after prev (e1 ++ e2).
Proof.
  revert prev. induction e1 as [|e e1 IH]; intros prev; simpl.
  - intros _. apply paced_after_any.
  - intros [Hfirst Hrest] H2. split; [done |]. by apply IH.
Qed.

Lemma paced_app (e1 e2 : list event) : paced e1 → paced e2 → paced (e1 ++ e2).
Proof. apply paced_after_app. Qed.

Lemma paced_no_pause (prev : option event) (events : list event) :
  Sleep ∉ events → paced_after prev events.
Proof.
  revert prev. induction events as [|e events IH]; intros prev; [done |].
  intros [Hne Hnotin]%not_elem_of_cons. split; [| by apply IH].
  intros ->. done.
Qed.


Lemma well_paired_classification (categories : value) (events : list event) :
  Forall (classification_event categories) events → Forall well_paired events.
Proof.
  intros Hall. eapply Forall_impl; [exact Hall |].
  intros [p| p r | |path lines]; simpl; try done.
  intros (text & joined & use_openai & _ & -> & ->). by destruct use_openai.
Qed.

Section RunEvents.

Context `{RT : Runtime}.

Lemma classification_events_refl (categories : value) (s : state) :
  classification_events categories s s.
Proof. exists []. by rewrite app_nil_r. Qed.

Lemma classification_events_trans (categories : value) (s1 s2 s3 : state) :
  classification_events categories s1 s2 →
  classification_events categories s2 s3 →
  classification_events categories s1 s3.
Proof.
  intros (e1 & H1 & Hall1 & Hp1) (e2 & H2 & Hall2 & Hp2).
  exists (e1 ++ e2). split; [by rewrite H2, H1, app_assoc |].
  split; [by apply Forall_app | by apply paced_app].
Qed.

(** One call: its client, then at most its completion; a call that returns
    has requested it. *)
Lemma classify_events_exact (text categories : value) (use_openai : bool)
    (s s' : state) (r : result value) :
  classify_dietary_restrictions text categories use_openai s = (r, s') →
  trace s' = trace s ++ [NewClient (provider_of use_openai)] ∧ is_ok r = false
  ∨ ∃ joined,
      Py.join ", " categories = Ok joined
      ∧ trace s'
        = trace s ++ [NewClient (provider_of use_openai);
                      ChatCreate (provider_of use_openai)
                        (classify_request text joined use_openai)].
Proof.
  unfold classify_dietary_restrictions. unfold_M. intros H.
  destruct (new_client (provider_of use_openai) (world s)) as [[[]|e] w1];
    simpl in H; [| injection H as <- <-; by left].
  destruct (Py.join ", " categories) as [joined|e]; simpl in H;
    [| injection H as <- <-; by left].
  right. exists joined. split; [done |].
  destruct (chat_create _ _ w1) as [[content|e] w2]; simpl in H.
  - destruct (json_loads content) as [v|e]; simpl in H;
      injection H as <- <-; simpl; by rewrite <- app_assoc.
  - injection H as <- <-; simpl. by rewrite <- app_assoc.
Qed.

Lemma classify_shape (text categories : value) (use_openai : bool)
    (s s' : state) (r : result value) :
  classify_dietary_restrictions text categories use_openai s = (r, s') →
  classification_events categories s s'.
Proof.
  intros [[Htrace _] | (joined & Hjoin & Htrace)]%classify_events_exact.
  - exists [NewClient (provider_of use_openai)]. split; [done |].
    split; [by repeat constructor |]. by repeat split.
  - eexists. split; [done |]. split.
    + repeat constructor. simpl. by eauto 10.
    + by repeat split.
Qed.

(** A call of the primary provider that returns, then the pause. *)
Lemma classify_pause_shape (text categories c : value) (s s1 : state) :
  classify_dietary_restrictions text categories false s = (Ok c, s1) →
  classification_events categories s
    (State (world s1) (trace s1 ++ [Sleep]) (disk s1)).
Proof.
  intros [[_ Hfalse] | (joined & Hjoin & Htrace)]%classify_events_exact;
    [done |].
  eexists [_; _; Sleep]. simpl. split; [by rewrite Htrace, <- app_assoc |].
  split.
  - repeat constructor. simpl. exists text, joined, false. by eauto.
  - split; [done |]. split; [done |]. split; [| done]. intros _. by eauto.
Qed.

Lemma classify_items_shape (categories : value) (items classification : list value)
    (s s' : state) (r : result value) :
  classify_items items categories classification s = (r, s') →
  classification_events categories s s'.
Proof.
  revert classification s.
  induction items as [|item items IH]; intros classification s; simpl.
  - unfold_M. intros H; injection H as <- <-. apply classification_events_refl.
  - unfold_M. intros H.
    destruct (classify_dietary_restrictions item categories false s)
      as [[c|e] s1] eqn:Hcall.
    2:{ injection H as <- <-. by eapply classify_shape. }
    destruct (Py.iter c) as [more|e]; simpl in H.
    2:{ injection H as <- <-. by eapply classify_shape. }
    eapply classification_events_trans;
      [by eapply classify_pause_shape | by eapply IH].
Qed.

Lemma classify_primary_shape (text : string) (categories : value)
    (s s' : state) (r : result value) :
  classify_primary text categories s = (r, s') →
  classification_events categories s s'.
Proof.
  unfold classify_primary.
  destruct (Str.startswith "[" text && Str.endswith "]" text).
  - unfold_M. destruct (json_loads text) as [text_list|e]; simpl.
    2:{ intros H; injection H as <- <-. apply classification_events_refl. }
    destruct (Py.iter text_list) as [items|e]; simpl.
    2:{ intros H; injection H as <- <-. apply classification_events_refl. }
    apply classify_items_shape.
  - unfold_M. intros H.
    destruct (classify_dietary_restrictions (PyStr text) categories false s)
      as [[c|e] s1] eqn:Hcall; injection H as <- <-.
    + by eapply classify_pause_shape.
    + by eapply classify_shape.
Qed.

Lemma classify_text_shape (text : string) (categories : value)
    (s s' : state) (r : result value) :
  classify_text text categories s = (r, s') →
  classification_events categories s s'.
Proof.
  destruct (Str.nonempty text) eqn:Hne.
  - rewrite classify_text_cases by done.
    destruct (classify_primary text categories s) as [[c|e] s1] eqn:Hprimary;
      apply classify_primary_shape in Hprimary.
    + by intros H; injection H as <- <-.
    + destruct (classify_dietary_restrictions (PyStr text) categories true s1)
        as [[c|e'] s2] eqn:Hfallback; apply classify_shape in Hfallback;
        intros H; injection H as <- <-;
        by eapply classification_events_trans.
  - unfold classify_text. rewrite Hne. unfold_M. intros H; injection H as <- <-.
    apply classification_events_refl.
Qed.

Lemma process_row_shape (filename column_name : string) (categories : value)
    (r : row) (t : table) (s s' : state) (res : result table) :
  process_row filename column_name categories r t s = (res, s') →
  classification_events categories s s'.
Proof.
  unfold process_row. unfold_M.
  destruct (is_approved r) as [[]|e];
    try (intros H; injection H as <- <-; apply classification_events_refl).
  destruct (Py.strip (row_get r column_name)) as [text|e];
    [| intros H; injection H as <- <-; apply classification_events_refl].
  destruct (classify_text text categories s) as [[c|e] s1] eqn:Hc;
    apply classify_text_shape in Hc.
  - destruct (Py.iter c); by intros H; injection H as <- <-.
  - by intros H; injection H as <- <-.
Qed.

Lemma process_rows_shape (test_run : bool) (filename column_name : string)
    (categories : value) (i : nat) (rows : list row) (t : table)
    (s s' : state) (res : result table) :
  process_rows test_run filename column_name categories i rows t s = (res, s') →
  classification_events categories s s'.
Proof.
  revert i t s. induction rows as [|r rows IH]; intros i t s.
  - simpl. unfold_M. intros H; injection H as <- <-.
    apply classification_events_refl.
  - rewrite process_rows_cons.
    destruct (test_run && (10 <=? i)).
    { unfold_M. intros H; injection H as <- <-.
      apply classification_events_refl. }
    unfold_M.
    destruct (process_row filename column_name categories r t s)
      as [[t1|e] s1] eqn:Hrow; apply process_row_shape in Hrow.
    + intros H. apply IH in H. by eapply classification_events_trans.
    + by intros H; injection H as <- <-.
Qed.

Lemma process_files_shape (test_run : bool) (column_name : string)
    (categories : value) (files : folder) (t : table)
    (s s' : state) (res : result table) :
  process_files test_run column_name categories files t s = (res, s') →
  classification_events categories s s'.
Proof.
  revert t s. induction files as [|[filename rows] files IH]; intros t s; simpl.
  - unfold_M. intros H; injection H as <- <-. apply classification_events_refl.
  - unfold_M.
    destruct (process_rows test_run filename column_name categories 0 rows t s)
      as [[t1|e] s1] eqn:Hrows; apply process_rows_shape in Hrows.
    + intros H. apply IH in H. by eapply classification_events_trans.
    + by intros H; injection H as <- <-.
Qed.

End RunEvents.

Section RunShape.

Context `{RT : Runtime}.

Lemma get_unique_categories_shape (data_folder : folder) (column_name : string)
    (s s1 : state) (r : result value) :
  get_unique_categories data_folder column_name s = (r, s1) →
  ∃ derivation,
    trace s1 = trace s ++ derivation
    ∧ match unique_values_of data_folder column_name with
      | Ok unique_values =>
          Forall (derivation_event (set_iter unique_values)) derivation
      | Raise _ => derivation = []
      end.
Proof.
  unfold get_unique_categories. unfold_M.
  destruct (unique_values_of data_folder column_name) as [u|e].
  2:{ intros H; injection H as <- <-. exists []. by rewrite app_nil_r. }
  destruct (new_client Groq (world s)) as [[[]|e] w1]; simpl.
  2:{ intros H; injection H as <- <-. exists [NewClient Groq].
      split; [done |]. by repeat constructor. }
  intros H.
  exists [NewClient Groq;
          ChatCreate Groq
            (ChatRequest llama categories_system
               (PyStr (categories_prompt (set_iter u))))].
  split; [| by repeat constructor].
  destruct (chat_create _ _ w1) as [[content|e] w2]; simpl in H.
  - destruct (json_loads content); injection H as <- <-; simpl;
      by rewrite <- app_assoc.
  - injection H as <- <-; simpl. by rewrite <- app_assoc.
Qed.

(** A run, in three parts: the category derivation, the classification
    loop, and the output file, which a run creates when it reaches
    line 165. *)
Lemma run_shape (data_folder : folder) (column_name output_file_base : string)
    (test_run : bool) (s s' : state) (res : result ()) :
  process_csv_files data_folder column_name output_file_base test_run s
  = (res, s') →
  ∃ derivation classification final categories,
    trace s' = trace s ++ derivation ++ classification ++ final
    ∧ match unique_values_of data_folder column_name with
      | Ok unique_values =>
          Forall (derivation_event (set_iter unique_values)) derivation
      | Raise _ => derivation = []
      end
    ∧ Forall (classification_event categories) classification
    ∧ paced classification
    ∧ (is_ok res = false ∧ final = [] ∧ disk s' = disk s
       ∨ ∃ rows,
           final = [WriteCsv (get_unique_filename output_file_base ".csv" (disk s))
                      (written (header :: rows))]
           ∧ disk s' = {[get_unique_filename output_file_base ".csv" (disk s)]} ∪ disk s
           ∧ res = if forallb row_encodable (header :: rows) then Ok ()
                   else Raise UnicodeEncodeError).
Proof.
  unfold process_csv_files, write_results, write_csv, exists_on_disk. unfold_M.
  destruct (get_unique_categories data_folder column_name s)
    as [[categories|e] s1] eqn:Hcat.
  2:{ intros H; injection H as <- <-.
      pose proof (get_unique_categories_disk _ _ _ _ _ Hcat) as Hdisk.
      apply get_unique_categories_shape in Hcat as (derivation & Htrace & Hd).
      exists derivation, [], [], PyNone. rewrite !app_nil_r.
      split; [done |]. split; [done |]. split; [done |]. split; [done |].
      by left. }
  pose proof (get_unique_categories_disk _ _ _ _ _ Hcat) as Hdisk1.
  apply get_unique_categories_shape in Hcat as (derivation & Htrace1 & Hd).
  destruct (process_files test_run column_name categories
              (csv_files data_folder) [] s1) as [[t|e] s2] eqn:Hfiles.
  2:{ intros H; injection H as <- <-.
      pose proof (process_files_disk _ _ _ _ _ _ _ _ Hfiles) as Hdisk2.
      apply process_files_shape in Hfiles as (classification & Htrace2 & Hall & Hp).
      exists derivation, classification, [], categories. rewrite app_nil_r.
      split; [by rewrite Htrace2, Htrace1, app_assoc |].
      split; [done |]. split; [done |]. split; [done |].
      left. split; [done |]. split; [done | congruence]. }
  pose proof (process_files_disk _ _ _ _ _ _ _ _ Hfiles) as Hdisk2.
  apply process_files_shape in Hfiles as (classification & Htrace2 & Hall & Hp).
  destruct (classification_counts t) as [counts|e].
  - intros H; injection H as <- <-.
    exists derivation, classification,
      [WriteCsv (get_unique_filename output_file_base ".csv" (disk s))
         (written (header :: data_rows counts))], categories.
    cbn [trace disk]. rewrite Hdisk2, Hdisk1.
    split; [by rewrite Htrace2, Htrace1, <- !app_assoc |].
    split; [done |]. split; [done |]. split; [done |].
    right. by exists (data_rows counts).
  - intros H; injection H as <- <-.
    exists derivation, classification, [], categories. rewrite app_nil_r.
    split; [by rewrite Htrace2, Htrace1, app_assoc |].
    split; [done |]. split; [done |]. split; [done |].
    left. split; [done |]. split; [done | congruence].
Qed.

Lemma derivation_writes (unique_values : result (gset string))
    (derivation : list event) :
  match unique_values with
  | Ok u => Forall (derivation_event (set_iter u)) derivation
  | Raise _ => derivation = []
  end →
  writes derivation = [] ∧ Forall well_paired derivation ∧ paced derivation
  ∧ ∀ p r, ChatCreate p r ∈ derivation →
           p = Groq ∧ system_content r = categories_system.
Proof.
  destruct unique_values as [u|e].
  2:{ intros ->. split; [done |]. split; [constructor |]. split; [done |].
      intros p r Hin. by apply elem_of_nil in Hin. }
  intros Hall. split; [| split; [| split]].
  - induction Hall as [|ev events Hev _ IH]; [done |]. by destruct ev.
  - eapply Forall_impl; [exact Hall |].
    intros [p|p r| |path lines]; simpl; try done. by intros [-> ->].
  - apply paced_no_pause. intros Hin.
    by apply (proj1 (Forall_forall _ _) Hall) in Hin.
  - intros p r Hin. apply (proj1 (Forall_forall _ _) Hall) in Hin.
    simpl in Hin. by destruct Hin as [-> ->].
Qed.


(** X7.  In every run each request names the model that belongs to its
    provider (the Llama model for the primary provider, the GPT model for
    the fallback), and all classification requests of the run carry one and
    the same system prompt: apart from the category derivation, which goes
    to the primary provider with its own system prompt, the prompt never
    changes during the run. *)
Theorem requests_are_paired_and_share_a_prompt
    (data_folder : folder) (column_name output_file_base : string)
    (test_run : bool) (s s' : state) (res : result ()) :
  process_csv_files data_folder column_name output_file_base test_run s
  = (res, s') →
  ∃ events system,
    trace s' = trace s ++ events
    ∧ Forall well_paired events
    ∧ ∀ p r, ChatCreate p r ∈ events →
             p = Groq ∧ system_content r = categories_system
             ∨ system_content r = system.
Proof.
  intros (derivation & classification & final & categories & Htrace & Hd
          & Hall & _ & Hres)%run_shape.
  apply derivation_writes in Hd as (_ & Hpd & _ & Hsys).
  exists (derivation ++ classification ++ final),
    (match Py.join ", " categories with
     | Ok joined => classify_system joined
     | Raise _ => ""
     end).
  split; [done |].
  assert (Hfinal : ∀ p r, ChatCreate p r ∉ final).
  { intros p r Hin. destruct Hres as [(_ & -> & _) | (rows & -> & _)].
    - by apply elem_of_nil in Hin.
    - by apply list_elem_of_singleton in Hin. }
  split.
  - apply Forall_app. split; [done |]. apply Forall_app.
    split; [by eapply well_paired_classification |].
    apply Forall_forall. intros [p|p r| |path lines] Hin; try done.
    by apply Hfinal in Hin.
  - intros p r [Hin | [Hin | Hin]%elem_of_app]%elem_of_app.
    + left. by apply Hsys.
    + right. apply (proj1 (Forall_forall _ _) Hall) in Hin.
      destruct Hin as (text & joined & use_openai & -> & _ & ->). done.
    + by apply Hfinal in Hin.
Qed.

(** X8.  In every run each pause comes directly after a completion
    requested from the primary provider: the script never pauses after a
    fallback call, after a call that raised before its request, twice in a
    row, or before its first request. *)
Theorem pauses_follow_primary_completions
    (data_folder : folder) (column_name output_file_base : string)
    (test_run : bool) (s s' : state) (res : result ()) :
  process_csv_files data_folder column_name output_file_base test_run s
  = (res, s') →
  ∃ events, trace s' = trace s ++ events ∧ paced events.
Proof.
  intros (derivation & classification & final & categories & Htrace & Hd
          & _ & Hpaced & Hres)%run_shape.
  apply derivation_writes in Hd as (_ & _ & Hpd & _).
  exists (derivation ++ classification ++ final). split; [done |].
  apply paced_app; [done |]. apply paced_app; [done |].
  destruct Hres as [(_ & -> & _) | (rows & -> & _)]; [done | by split].
Qed.

End RunShape.


(** Under an ASCII locale, a category with an accented letter stops the
    write: the run raises after the provider calls have been made, and the
    output file is left with the header and the one row before. *)
Example unencodable_category_leaves_partial_file :
  fst accented_run = Raise UnicodeEncodeError
  ∧ last (trace (snd accented_run))
    = Some (WriteCsv "classification_results(1).csv"
              [header; [PyStr "a.csv"; PyStr "Vegan"; PyInt 1]])
  ∧ elements (disk (snd accented_run)) = ["classification_results(1).csv"].
Proof. repeat split; reflexivity. Qed.

Lemma requests_are_paired_and_share_a_prompt_witness :
  ∃ events system,
    trace (snd three_row_run) = trace (start three_row_answers ∅) ++ events
    ∧ Forall well_paired events
    ∧ ∀ p r, ChatCreate p r ∈ events →
             p = Groq ∧ system_content r = categories_system
             ∨ system_content r = system.
Proof.
  apply (@requests_are_paired_and_share_a_prompt scripted three_row_folder
           dietary_column "classification_results" false
           (start three_row_answers ∅) (snd three_row_run) (Ok ())).
  reflexivity.
Defined.

Lemma pauses_follow_primary_completions_witness :
  ∃ events,
    trace (snd three_row_run) = trace (start three_row_answers ∅) ++ events
    ∧ paced events.
Proof.
  apply (@pauses_follow_primary_completions scripted three_row_folder
           dietary_column "classification_results" false
           (start three_row_answers ∅) (snd three_row_run) (Ok ())).
  reflexivity.
Defined.

(** ** Folders without approved rows, and short files *)

Section Degenerate.

Context `{RT : Runtime}.

Lemma process_rows_unapproved (test_run : bool) (filename column_name : string)
    (categories : value) (rows : list row) (i : nat) (t : table) (s : state) :
  Forall (λ r, is_approved r = Ok false) rows →
  process_rows test_run filename column_name categories i rows t s = (Ok t, s).
Proof.
  intros Hall. revert i. induction Hall as [|r rows Hr _ IH]; intros i; [done |].
  rewrite process_rows_cons. destruct (test_run && (10 <=? i)); [done |].
  unfold process_row. unfold_M. rewrite Hr. apply IH.
Qed.

Lemma process_files_unapproved (test_run : bool) (column_name : string)
    (categories : value) (files : folder) (t : table) (s : state) :
  Forall (λ f, Forall (λ r, is_approved r = Ok false) f.2) files →
  process_files test_run column_name categories files t s = (Ok t, s).
Proof.
  induction 1 as [|[filename rows] files Hrows _ IH]; [done |].
  cbn [process_files]. unfold_M. rewrite process_rows_unapproved by done.
  apply IH.
Qed.

Lemma unique_of_files_unapproved (column_name : string) (files : folder)
    (u : gset string) :
  Forall (λ f, Forall (λ r, is_approved r = Ok false) f.2) files →
  unique_of_files column_name files u = Ok u.
Proof.
  induction 1 as [|[filename rows] files Hrows _ IH]; [done |].
  simpl. unfold mbind, result_mbind, result_bind.
  assert (Hu : unique_of_rows column_name rows u = Ok u).
  { clear -Hrows. simpl in Hrows. induction Hrows as [|r rows Hr _ IH]; [done |].
    simpl. unfold mbind, result_mbind, result_bind. by rewrite Hr. }
  by rewrite Hu.
Qed.

(** X9.  When no record of any CSV file is approved (an empty folder
    included), the set of unique values is empty and the categories are
    derived from an empty list of values; if the derivation returns
    categories, the run does nothing more than write an output file that
    holds the header line alone: no classification call is made. *)
Theorem no_approved_rows_header_only
    (data_folder : folder) (column_name output_file_base : string)
    (test_run : bool) (categories : value) (s s1 : state) :
  Forall (λ f, Forall (λ r, is_approved r = Ok false) f.2)
    (csv_files data_folder) →
  get_unique_categories data_folder column_name s = (Ok categories, s1) →
  unique_values_of data_folder column_name = Ok ∅
  ∧ set_iter ∅ = []
  ∧ process_csv_files data_folder column_name output_file_base test_run s
    = (Ok (),
       State (world s1)
         (trace s1
          ++ [WriteCsv (get_unique_filename output_file_base ".csv" (disk s))
                [header]])
         ({[get_unique_filename output_file_base ".csv" (disk s)]} ∪ disk s)).
Proof.
  intros Hall Hcat.
  split; [by apply unique_of_files_unapproved |].
  split.
  - pose proof (set_iter_perm ∅) as Hperm. rewrite elements_empty in Hperm.
    by apply Permutation_nil_r in Hperm.
  - pose proof (get_unique_categories_disk _ _ _ _ _ Hcat) as Hdisk.
    unfold process_csv_files, write_results, exists_on_disk.
    unfold_M. rewrite Hcat, process_files_unapproved by done.
    cbn -[write_csv header]. unfold write_csv.
    rewrite forallb_header, written_header. simpl. by rewrite Hdisk.
Qed.

(** X10.  In a folder whose CSV files have at most ten records each, a test
    run is the full run. *)
Theorem test_run_is_full_run_on_short_files
    (data_folder : folder) (column_name output_file_base : string) (s : state) :
  Forall (λ f, length f.2 ≤ 10) (csv_files data_folder) →
  process_csv_files data_folder column_name output_file_base true s
  = process_csv_files data_folder column_name output_file_base false s.
Proof.
  intros Hshort.
  assert (Hten : first_ten (csv_files data_folder) = csv_files data_folder).
  { unfold first_ten. induction Hshort as [|[f rows] files Hf _ IH]; [done |].
    csimpl. rewrite IH. by rewrite take_ge. }
  unfold process_csv_files. unfold_M.
  destruct (get_unique_categories data_folder column_name s)
    as [[categories|e] s1]; [| done].
  by rewrite process_files_test_run, Hten.
Qed.

End Degenerate.

Lemma no_approved_rows_header_only_witness :
  unique_values_of [("a.csv", [status_row "pending" "vegan"]); ("notes.txt", [])]
    dietary_column = Ok ∅
  ∧ @set_iter scripted ∅ = []
  ∧ @process_csv_files scripted
      [("a.csv", [status_row "pending" "vegan"]); ("notes.txt", [])]
      dietary_column "classification_results" false
      (start [Ok (answer "categories" ["No restrictions"])] ∅)
    = (Ok (),
       @State scripted []
         ([NewClient Groq;
           ChatCreate Groq
             (ChatRequest llama categories_system (PyStr (categories_prompt [])))]
          ++ [WriteCsv (get_unique_filename "classification_results" ".csv" ∅)
                [header]])
         ({[get_unique_filename "classification_results" ".csv" ∅]} ∪ ∅)).
Proof.
  apply (@no_approved_rows_header_only scripted
           [("a.csv", [status_row "pending" "vegan"]); ("notes.txt", [])]
           dietary_column "classification_results" false
           (PyList [PyStr "No restrictions"])
           (start [Ok (answer "categories" ["No restrictions"])] ∅)
           (@State scripted []
              [NewClient Groq;
               ChatCreate Groq
                 (ChatRequest llama categories_system
                    (PyStr (categories_prompt [])))] ∅)).
  - repeat constructor.
  - reflexivity.
Defined.

Lemma test_run_is_full_run_on_short_files_witness :
  @process_csv_files scripted three_row_folder dietary_column
    "classification_results" true (start three_row_answers ∅)
  = @process_csv_files scripted three_row_folder dietary_column
      "classification_results" false (start three_row_answers ∅).
Proof.
  apply (@test_run_is_full_run_on_short_files scripted three_row_folder
           dietary_column "classification_results" (start three_row_answers ∅)).
  repeat constructor.
Defined.

(** ** The counter *)

Lemma total_incr (elem : value) (c : list (value * nat)) :
  total (counter_incr elem c) = S (total c).
Proof.
  induction c as [|[k n] c IH]; simpl; [done |].
  destruct (Py.key_eqb k elem); simpl; [done | rewrite IH; lia].
Qed.

Lemma counter_update_total (cats : list value) (c0 : list (value * nat)) :
  match counter_update cats c0 with
  | Ok c =>
      Forall (λ v, Py.hashable v = true) cats
      ∧ total c = total c0 + length cats
  | Raise e => e = TypeError ∧ Exists (λ v, Py.hashable v = false) cats
  end.
Proof.
  revert c0. induction cats as [|elem cats IH]; intros c0; simpl.
  - split; [constructor | lia].
  - destruct (Py.hashable elem) eqn:Hh.
    + specialize (IH (counter_incr elem c0)).
      destruct (counter_update cats (counter_incr elem c0)) as [c|e].
      * destruct IH as [Hall Htotal]. split; [by constructor |].
        rewrite Htotal, total_incr. lia.
      * destruct IH as [-> Hex]. split; [done | by constructor 2].
    + split; [done | by constructor 1].
Qed.

(** X11.  [Counter] counts every entry it is given: its counts add up to
    the number of entries.  It raises, with [TypeError], exactly when one of
    the entries is unhashable (a list or a dict among the categories a
    provider returned). *)
Theorem counter_counts_every_entry (cats : list value) :
  match Counter cats with
  | Ok c =>
      Forall (λ v, Py.hashable v = true) cats ∧ total c = length cats
  | Raise e => e = TypeError ∧ Exists (λ v, Py.hashable v = false) cats
  end.
Proof. apply (counter_update_total cats []). Qed.

Lemma counter_incr_keys (name : string) (c : list (value * nat)) :
  (PyStr name ∈ c.*1 → (counter_incr (PyStr name) c).*1 = c.*1)
  ∧ (PyStr name ∉ c.*1 → (counter_incr (PyStr name) c).*1 = c.*1 ++ [PyStr name]).
Proof.
  induction c as [|[k n] c [IHin IHout]]; csimpl.
  - split; [by intros ?%elem_of_nil | done].
  - rewrite key_eqb_name_r. destruct (is_name name k) eqn:Hk; csimpl.
    + split; [done |]. apply is_name_true in Hk as ->.
      intros []. apply elem_of_cons. by left.
    + assert (k ≠ PyStr name) as Hne.
      { intros ->. simpl in Hk. by rewrite string_eqb_refl in Hk. }
      split.
      * intros [? | Hin]%elem_of_cons; [done |]. by rewrite IHin.
      * intros [_ Hout]%not_elem_of_cons. by rewrite IHout.
Qed.

Lemma counter_update_keys (names seen : list string) (c0 : list (value * nat)) :
  (∀ y, y ∈ seen ↔ PyStr y ∈ c0.*1) →
  ∃ c, counter_update (PyStr <$> names) c0 = Ok c
       ∧ c.*1 = c0.*1 ++ (PyStr <$> first_seen_from seen names).
Proof.
  revert seen c0. induction names as [|x names IH]; intros seen c0 Hseen; csimpl.
  - exists c0. by rewrite app_nil_r.
  - destruct (counter_incr_keys x c0) as [Hin Hout].
    destruct (bool_decide (x ∈ seen)) eqn:Hdec.
    + apply bool_decide_eq_true_1 in Hdec. apply Hseen in Hdec.
      destruct (IH seen (counter_incr (PyStr x) c0)) as (c & Hc & Hkeys);
        [by rewrite (Hin Hdec) |].
      exists c. split; [done |]. by rewrite Hkeys, (Hin Hdec).
    + apply bool_decide_eq_false_1 in Hdec.
      assert (PyStr x ∉ c0.*1) as Hnotin by (by rewrite <- Hseen).
      destruct (IH (x :: seen) (counter_incr (PyStr x) c0)) as (c & Hc & Hkeys).
      { intros y. rewrite (Hout Hnotin), elem_of_cons, elem_of_app,
          list_elem_of_singleton, Hseen.
        split; intros [H | H]; try (by left); try (by right).
        - right. by subst.
        - left. by injection H. }
      exists c. split; [done |]. rewrite Hkeys, (Hout Hnotin).
      csimpl. by rewrite <- app_assoc.
Qed.

(** X12.  The keys of [Counter], and with them the data rows written for a
    file, come in the order in which the category names first occur among
    the entries of the file. *)
Theorem counter_keys_in_first_seen_order (filename : string) (names : list string) :
  ∃ c,
    Counter (PyStr <$> names) = Ok c
    ∧ c.*1 = PyStr <$> first_seen names
    ∧ classification_counts [(filename, PyStr <$> names)] = Ok [(filename, c)]
    ∧ (λ line, line !! 1) <$> data_rows [(filename, c)]
      = (λ name, Some (PyStr name)) <$> first_seen names.
Proof.
  destruct (counter_update_keys names [] []) as (c & Hc & Hkeys).
  { intros y. split; by intros ?%elem_of_nil. }
  exists c. split; [done |]. split; [done |].
  split.
  - cbn [classification_counts]. unfold mbind, result_mbind, result_bind, Counter.
    by rewrite Hc.
  - assert (Hrows : ∀ c' : list (value * nat),
              (λ line : list value, line !! 1) <$> data_rows [(filename, c')]
              = Some <$> c'.*1).
    { intros c'. unfold data_rows. csimpl. rewrite app_nil_r.
      induction c' as [|[k n] c' IH]; csimpl; [done |]. by rewrite IH. }
    rewrite Hrows, Hkeys. simpl. unfold first_seen.
    by rewrite <- list_fmap_compose.
Qed.

(** ** Successive output files *)

Lemma string_length_app (s t : string) :
  String.length (s +:+ t) = String.length s + String.length t.
Proof. induction s as [|a s IH]; simpl; [done | by rewrite IH]. Qed.

Lemma candidate_not_plain (base_name extension : string) (n : nat) :
  candidate base_name extension n ≠ base_name +:+ extension.
Proof.
  unfold candidate. intros H. apply (inj (String.app base_name)) in H.
  apply (f_equal String.length) in H. rewrite !string_length_app in H.
  simpl in H. lia.
Qed.

(** X13.  The name chosen is never the plain [base_name + extension].  When
    a run has written its file, the next run with the same base name chooses
    a different file, one that did not exist before the first run either,
    and whose number is larger. *)
Theorem successive_output_names_increase
    (base_name extension : string) (existing : gset string) :
  ∃ n1 n2,
    1 ≤ n1 < n2
    ∧ get_unique_filename base_name extension existing
      = candidate base_name extension n1
    ∧ get_unique_filename base_name extension
        ({[get_unique_filename base_name extension existing]} ∪ existing)
      = candidate base_name extension n2
    ∧ candidate base_name extension n2 ≠ candidate base_name extension n1
    ∧ (candidate base_name extension n2 ∉ existing)
    ∧ get_unique_filename base_name extension existing
      ≠ base_name +:+ extension.
Proof.
  unfold get_unique_filename.
  destruct (get_unique_filename_from_spec base_name extension existing 1)
    as (n1 & Hle1 & Heq1 & Hfree1 & Hbelow1).
  rewrite Heq1.
  destruct (get_unique_filename_from_spec base_name extension
              ({[candidate base_name extension n1]} ∪ existing) 1)
    as (n2 & Hle2 & Heq2 & Hfree2 & Hbelow2).
  exists n1, n2.
  split; [| split; [done |]; split; [done |]; split; [| split];
            [ intros Heq; apply Hfree2, elem_of_union; left;
              by apply elem_of_singleton
            | intros Hin; apply Hfree2, elem_of_union; by right
            | apply candidate_not_plain ]].
  split; [done |].
  destruct (decide (n1 < n2)) as [| Hge]; [done |]. exfalso. apply Hfree2.
  destruct (decide (n2 = n1)) as [-> | Hne].
  - apply elem_of_union. left. by apply elem_of_singleton.
  - apply elem_of_union. right. apply Hbelow1. lia.
Qed.

(** ** Records that cannot be read, and files that are not read *)

Section Unreadable.

Context `{RT : Runtime}.

Lemma is_approved_raises (r : row) (e : exn) :
  is_approved r = Raise e → e = AttributeError.
Proof.
  unfold is_approved. destruct (row_get r "approval_status"); simpl; congruence.
Qed.

Lemma strip_raises (v : value) (e : exn) : Py.strip v = Raise e → e = AttributeError.
Proof. destruct v; simpl; congruence. Qed.

Lemma unique_of_rows_raises (column_name : string) (rows : list row)
    (u : gset string) :
  (∃ e, unique_of_rows column_name rows u = Raise e)
  ↔ Exists (unreadable column_name) rows.
Proof.
  revert u. induction rows as [|r rows IH]; intros u; simpl.
  - split; [by intros [e ?] | by intros ?%Exists_nil].
  - unfold mbind, result_mbind, result_bind. rewrite Exists_cons.
    unfold unreadable at 1.
    destruct (is_approved r) as [[]|e0] eqn:Happroved.
    + destruct (Py.strip (row_get r column_name)) as [text|e0] eqn:Htext.
      * destruct (Str.nonempty text); rewrite IH;
          split; [by right | | by right |];
          by intros [[? | [_ ?]] | ?].
      * apply strip_raises in Htext as Heq. subst e0.
        split; [intros _; left; by right | by eauto].
    + rewrite IH. split; [by right |]. by intros [[? | [? _]] | ?].
    + apply is_approved_raises in Happroved as Heq. subst e0.
      split; [intros _; left; by left | by eauto].
Qed.

Lemma unique_of_rows_exn (column_name : string) (rows : list row)
    (u : gset string) (e : exn) :
  unique_of_rows column_name rows u = Raise e → e = AttributeError.
Proof.
  revert u. induction rows as [|r rows IH]; intros u; simpl; [done |].
  unfold mbind, result_mbind, result_bind.
  destruct (is_approved r) as [[]|e0] eqn:Happroved.
  - destruct (Py.strip (row_get r column_name)) as [text|e0] eqn:Htext.
    + destruct (Str.nonempty text); apply IH.
    + apply strip_raises in Htext. congruence.
  - apply IH.
  - apply is_approved_raises in Happroved. congruence.
Qed.

Lemma unique_of_files_raises (column_name : string) (files : folder)
    (u : gset string) :
  (∃ e, unique_of_files column_name files u = Raise e)
  ↔ Exists (λ f, Exists (unreadable column_name) f.2) files.
Proof.
  revert u. induction files as [|[filename rows] files IH]; intros u; simpl.
  - split; [by intros [e ?] | by intros ?%Exists_nil].
  - unfold mbind, result_mbind, result_bind. rewrite Exists_cons. simpl.
    destruct (unique_of_rows column_name rows u) as [u1|e0] eqn:Hrows.
    + rewrite IH. split; [by right |]. intros [Hex | ?]; [| done].
      apply (unique_of_rows_raises column_name rows u) in Hex as [e He].
      congruence.
    + split; [| by eauto]. intros _. left.
      apply (unique_of_rows_raises column_name rows u). by eauto.
Qed.

Lemma unique_of_files_exn (column_name : string) (files : folder)
    (u : gset string) (e : exn) :
  unique_of_files column_name files u = Raise e → e = AttributeError.
Proof.
  revert u. induction files as [|[filename rows] files IH]; intros u; simpl;
    [done |].
  unfold mbind, result_mbind, result_bind.
  destruct (unique_of_rows column_name rows u) as [u1|e0] eqn:Hrows.
  - apply IH.
  - apply unique_of_rows_exn in Hrows. congruence.
Qed.

(** X14.  The first stage reads the fields of the records outside any
    [try].  When some record of a CSV file has a status that is no string
    (the [None] of a short record), or is approved and has such a value in
    the target column, and only then, the run ends with [AttributeError]
    before any client is created: the state is unchanged, no provider is
    called and nothing is written. *)
Theorem unreadable_record_aborts_before_any_call
    (data_folder : folder) (column_name output_file_base : string)
    (test_run : bool) (s : state) :
  Exists (λ f, Exists (unreadable column_name) f.2) (csv_files data_folder)
  ↔ unique_values_of data_folder column_name = Raise AttributeError
    ∧ process_csv_files data_folder column_name output_file_base test_run s
      = (Raise AttributeError, s).
Proof.
  unfold unique_values_of. split.
  - intros Hex. apply (unique_of_files_raises column_name _ ∅) in Hex as [e He].
    pose proof (unique_of_files_exn _ _ _ _ He) as ->.
    split; [done |].
    unfold process_csv_files, get_unique_categories, unique_values_of. unfold_M.
    by rewrite He.
  - intros [He _]. apply (unique_of_files_raises column_name _ ∅). by eauto.
Qed.

Lemma csv_files_idemp (data_folder : folder) :
  csv_files (csv_files data_folder) = csv_files data_folder.
Proof.
  unfold csv_files. induction data_folder as [|[f rows] files IH]; [done |].
  rewrite filter_cons. case_decide as Hcsv; [| done].
  rewrite filter_cons. rewrite decide_True by done. by rewrite IH.
Qed.

(** X15.  Only the files whose name ends with ".csv" are read: two folders
    with the same CSV files, in the same order, give the same run, whatever
    other files they hold; in particular a folder can be replaced by the
    list of its CSV files. *)
Theorem only_csv_files_matter
    (folder1 folder2 : folder) (column_name output_file_base : string)
    (test_run : bool) (s : state) :
  csv_files folder1 = csv_files folder2 →
  process_csv_files folder1 column_name output_file_base test_run s
  = process_csv_files folder2 column_name output_file_base test_run s
  ∧ process_csv_files folder1 column_name output_file_base test_run s
    = process_csv_files (csv_files folder1) column_name output_file_base
        test_run s.
Proof.
  assert (Hsame : ∀ f1 f2 : folder,
            csv_files f1 = csv_files f2 →
            process_csv_files f1 column_name output_file_base test_run s
            = process_csv_files f2 column_name output_file_base test_run s).
  { intros f1 f2 Heq.
    unfold process_csv_files, get_unique_categories, unique_values_of.
    by rewrite Heq. }
  intros Heq. split; [by apply Hsame |].
  apply Hsame. by rewrite csv_files_idemp.
Qed.

End Unreadable.

Lemma unreadable_record_aborts_before_any_call_witness :
  unique_values_of [("a.csv", [approved_row "vegan"; short_row])] dietary_column
  = Raise AttributeError
  ∧ @process_csv_files scripted [("a.csv", [approved_row "vegan"; short_row])]
      dietary_column "classification_results" false (start three_row_answers ∅)
    = (Raise AttributeError, start three_row_answers ∅).
Proof.
  apply (proj1 (@unreadable_record_aborts_before_any_call scripted
                  [("a.csv", [approved_row "vegan"; short_row])]
                  dietary_column "classification_results" false
                  (start three_row_answers ∅))).
  constructor 1. constructor 2. constructor 1. by left.
Defined.

Lemma only_csv_files_matter_witness :
  @process_csv_files scripted
    (("notes.txt", [approved_row "kosher"]) :: three_row_folder
     ++ [("A.CSV", [approved_row "halal"])])
    dietary_column "classification_results" false (start three_row_answers ∅)
  = three_row_run
  ∧ @process_csv_files scripted
      (("notes.txt", [approved_row "kosher"]) :: three_row_folder
       ++ [("A.CSV", [approved_row "halal"])])
      dietary_column "classification_results" false (start three_row_answers ∅)
    = @process_csv_files scripted
        (csv_files (("notes.txt", [approved_row "kosher"]) :: three_row_folder
                    ++ [("A.CSV", [approved_row "halal"])]))
        dietary_column "classification_results" false (start three_row_answers ∅).
Proof.
  apply (@only_csv_files_matter scripted
           (("notes.txt", [approved_row "kosher"]) :: three_row_folder
            ++ [("A.CSV", [approved_row "halal"])])
           three_row_folder dietary_column "classification_results" false
           (start three_row_answers ∅)).
  reflexivity.
Defined.
